(** * Salary advance and loan API: a shallow embedding of Backend/main.py

    The service computes with Python floats and NumPy float64 values, which
    are IEEE 754 binary64 numbers: they are embedded as Rocq's primitive
    [float]s, whose operations are the same round-to-nearest-even binary64
    operations, specified by [SpecFloat].  Python integers are [Z].  An
    exception is an [exn] carried by [result]; the ledger [loans_db] is a
    finite map threaded through [calculate_advance].

    What the embedding takes from the libraries the service calls:
    - CPython: [float.__pow__], [round(x, 2)], [min], [max], true division
      and [format(x, ",.2f")], as floatobject.c and longobject.c define them;
    - the C library's [pow], a parameter of the model;
    - NumPy: [round] as scale, [rint], unscale, and the shortest-digits text
      of a float64;
    - pandas (1.5 to 2.x): the [DataFrame] constructor rejects columns of
      unequal lengths with [ValueError]; a float stored with [.at] into the
      int64 column [Payment] is stored as an int when it is a whole number
      within int64, and turns the column into float64 otherwise; [round]
      leaves an int64 column alone; [to_csv] writes float64 cells with
      NumPy's text and lines ended by [os.linesep].
    [uuid.uuid4()] and [datetime.now()] are inputs of [calculate_advance].
    Running out of memory and the JSON encoding of an answer are outside
    the model.

    Of Frontend/front.py the retry loop [get_backend_response] is embedded,
    in [Frontend]: what each attempt comes to is an input of the loop. *)

From Stdlib Require Import ZArith Floats Ascii String List Bool Lia.
From stdpp Require Import base option strings gmap.

Set Warnings "-inexact-float".

Local Open Scope string_scope.
Local Open Scope Z_scope.

(** ** Python exceptions *)

Inductive exn : Type :=
  | ValueError (msg : string)
  | ZeroDivisionError
  | OverflowError.

Inductive result (A : Type) : Type :=
  | Ok (a : A)
  | Raise (e : exn).

Arguments Ok {A} a.
Arguments Raise {A} e.

Definition bind {A B : Type} (r : result A) (k : A -> result B) : result B :=
  match r with
  | Ok a => k a
  | Raise e => Raise e
  end.

Notation "'let*' x := e 'in' k" := (bind e (fun x => k))
  (at level 10, x name, e at level 200, k at level 200).

(** ** Binary64 arithmetic as Python and NumPy use it *)

Module PyNum.

(** The float nearest to an integer ([float(k)] when it does not overflow). *)
Definition float_of_Z (z : Z) : float :=
  SF2Prim (binary_normalize prec emax z 0 false).

(** An [int] operand of a float operation is converted with
    [PyLong_AsDouble], which raises [OverflowError] when the nearest float
    is infinite. *)
Definition float_of_int (k : Z) : result float :=
  let f := float_of_Z k in
  if is_infinity f then Raise OverflowError else Ok f.

(** [x / y] on Python floats. *)
Definition float_truediv (x y : float) : result float :=
  if (y =? 0)%float then Raise ZeroDivisionError else Ok (x / y)%float.

(** The correctly rounded quotient of two positive integers. *)
Definition SF_of_ratio (s : bool) (p q : Z) : spec_float :=
  let '(m, e, l) := SFdiv_core_binary prec emax p 0 q 0 in
  binary_round_aux prec emax s m e l.

(** [a / b] on Python ints: the correctly rounded quotient. *)
Definition int_truediv (a b : Z) : result float :=
  if b =? 0 then Raise ZeroDivisionError
  else
    let s := xorb (a <? 0) (b <? 0) in
    let f := if a =? 0 then SF2Prim (S754_zero s)
             else SF2Prim (SF_of_ratio s (Z.abs a) (Z.abs b)) in
    if is_infinity f then Raise OverflowError else Ok f.

(** The builtins [min(a, b)] and [max(a, b)]: the second argument replaces
    the first only when it compares strictly smaller (larger). *)
Definition py_min (a b : float) : float := if (b <? a)%float then b else a.
Definition py_max (a b : float) : float := if (a <? b)%float then b else a.

(** Truth value of a float: [x != 0.0]. *)
Definition float_bool (x : float) : bool := negb (x =? 0)%float.

(** Nearest integer to [p / q], ties to even, for [0 <= p] and [0 < q]. *)
Definition div_half_even (p q : Z) : Z :=
  let (a, r) := Z.div_eucl p q in
  match 2 * r ?= q with
  | Lt => a
  | Eq => if Z.even a then a else a + 1
  | Gt => a + 1
  end.

(** C's [rint] in the default rounding mode. *)
Definition rint (x : float) : float :=
  match Prim2SF x with
  | S754_finite s m e =>
      if e <? 0
      then SF2Prim (binary_normalize prec emax
                      (cond_Zopp s (div_half_even (Zpos m) (2 ^ (- e)))) 0 s)
      else x
  | _ => x
  end.

(** NumPy's [round(x, 2)] on float64 (also behind [DataFrame.round(2)] and
    [round] of a NumPy scalar): scale, [rint], unscale. *)
Definition np_round2 (x : float) : float := (rint (x * 100) / 100)%float.

(** Python's [round(x, 2)] on a float: the exact value is rounded half-even
    to two decimals and the decimal is read back correctly rounded. *)
Definition py_round2 (x : float) : float :=
  match Prim2SF x with
  | S754_finite s m e =>
      if e <? 0
      then
        let n := div_half_even (Zpos m * 100) (2 ^ (- e)) in
        if n =? 0 then SF2Prim (S754_zero s)
        else SF2Prim (SF_of_ratio s n 100)
      else x
  | _ => x
  end.

(** [DOUBLE_IS_ODD_INTEGER] of CPython's floatobject.c. *)
Definition float_is_odd_integer (w : float) : bool :=
  match Prim2SF w with
  | S754_finite _ m e =>
      if e =? 0 then Pos.testbit m 0
      else if e <? 0
           then (Zpos m mod 2 ^ (- e) =? 0) && Z.odd (Zpos m / 2 ^ (- e))
           else false
  | _ => false
  end.

(** The whole number that a float stands for, if it stands for one
    ([x.is_integer()]). *)
Definition Z_of_float (x : float) : option Z :=
  match Prim2SF x with
  | S754_zero _ => Some 0
  | S754_finite s m e =>
      if 0 <=? e then Some (cond_Zopp s (Zpos m * 2 ^ e))
      else if Zpos m mod 2 ^ (- e) =? 0
           then Some (cond_Zopp s (Zpos m / 2 ^ (- e)))
           else None
  | _ => None
  end.

(** pandas' [np_can_hold_element] for an int64 column and a float: the int
    that is stored, if the float is a whole number within int64. *)
Definition int64_of_float (x : float) : option Z :=
  match Z_of_float x with
  | Some n => if (- 2 ^ 63 <=? n) && (n <=? 2 ^ 63 - 1) then Some n else None
  | None => None
  end.

Section Pow.

(** The C library's [pow], which CPython and NumPy both call.  Its
    results are not specified bit for bit, so it stays a parameter. *)
Variable libm_pow : float -> float -> float.

(** [x ** n] with [x] a float and [n] an int, after [float_pow] of
    CPython's floatobject.c: special cases are settled before the C
    library is called, and an infinite result raises [OverflowError] (the C
    library is taken to report a range error only together with an infinite
    or a zero result, as glibc does). *)
Definition float_pow (x : float) (n : Z) : result float :=
  let* w := float_of_int n in
  if (w =? 0)%float then Ok 1%float
  else if is_nan x then Ok x
  else if is_infinity x then
    let odd := float_is_odd_integer w in
    if (0 <? w)%float then Ok (if odd then x else abs x)
    else Ok (if odd then (if get_sign x then (-0)%float else 0%float) else 0%float)
  else if (x =? 0)%float then
    if (w <? 0)%float then Raise ZeroDivisionError
    else Ok (if float_is_odd_integer w then x else 0%float)
  else
    let negate := (x <? 0)%float && float_is_odd_integer w in
    let v := abs x in
    if (v =? 1)%float then Ok (if negate then (-1)%float else 1%float)
    else
      let r := libm_pow v w in
      if is_infinity r then Raise OverflowError
      else Ok (if negate then (- r)%float else r).

(** [x ** y] on float64 Series: NumPy hands both to the C library. *)
Definition np_power (x y : float) : float := libm_pow x y.

End Pow.

End PyNum.

Import PyNum.

(** ** Data model *)

(** The request body.  An [Optional] field that is [None] is [None]. *)
Record AdvanceRequest : Type := {
  gross_salary : float;
  pay_frequency : string;
  advance_amount : float;
  loan_amount : option float;
  interest_rate : option float;
  loan_term : option Z;
  include_amortization : option bool
}.

(** A value of the [Payment] column: an int while the column is int64, a
    float once it is float64. *)
Inductive number : Type :=
  | Int (n : Z)
  | Float (x : float).

(** One record of [amortization_df.to_dict("records")]. *)
Record AmortizationRow : Type := {
  Month : Z;
  Payment : number;
  Principal : float;
  Interest : float;
  Balance : float
}.

(** What one turn of the loop stores in row [i] of the frame:
    [at_Balance] is [df.at[i, "Balance"]], and so on. *)
Record FrameRow : Type := {
  at_Month : Z;
  at_Payment : float;
  at_Principal : float;
  at_Interest : float;
  at_Balance : float
}.

(** The decision dictionary.  A key that the dictionary does not have and a
    key whose value is [None] are both [None] here. *)
Record AdvanceDecision : Type := {
  eligible : bool;
  advance_approved : bool;
  max_advance : float;
  approved_amount : float;
  fee : float;
  total_repayable : option float;
  amortization_schedule : option (list AmortizationRow);
  message : string;
  loan_id : option string
}.

(** The dictionary stored in [loans_db]; its keys carry the prefix [rec_]
    here because they are also keys of the request. *)
Record LoanRecord : Type := {
  rec_loan_id : string;
  rec_advance_amount : float;
  rec_fee : float;
  rec_timestamp : string;
  rec_gross_salary : float;
  rec_pay_frequency : string;
  rec_loan_amount : option float;
  rec_interest_rate : option float;
  rec_loan_term : option Z;
  rec_total_repayable : option float;
  rec_amortization_schedule : option (list AmortizationRow)
}.

(** What an endpoint answers: a JSON body or an [HTTPException]. *)
Inductive response (A : Type) : Type :=
  | Json (body : A)
  | HTTPException (status_code : Z) (detail : string).

Arguments Json {A} body.
Arguments HTTPException {A} status_code detail.

(** The two bodies of [/calculate_advance]. *)
Inductive advance_body : Type :=
  | Decision (d : AdvanceDecision)
  | CsvExport (csv_data filename : string).

(** ** SalaryNormalizer (main.py, lines 39-49) *)

Definition convert_to_monthly_salary (gross_salary : float)
    (pay_frequency : string) : result float :=
  if String.eqb pay_frequency "Weekly" then Ok (gross_salary * 52 / 12)%float
  else if String.eqb pay_frequency "Bi-Weekly" then Ok (gross_salary * 26 / 12)%float
  else if String.eqb pay_frequency "Monthly" then Ok gross_salary
  else if String.eqb pay_frequency "Annually" then Ok (gross_salary / 12)%float
  else Raise (ValueError "Invalid pay_frequency").

(** ** LoanCalculator (main.py, lines 52-99) *)

Section LoanCalculator.

Variable libm_pow : float -> float -> float.

(** [n * t] of [calculate_compound_interest]: the exponent handed to the
    power, as a float. *)
Definition periods (term_months : Z) : result float :=
  let* t := int_truediv term_months 12 in
  Ok (12 * t)%float.

Definition calculate_compound_interest (principal rate : float)
    (term_months : Z) : result float :=
  let* periods := periods term_months in
  let rate := (rate / 100)%float in
  let rate_per_period := (rate / 12)%float in
  let total_repayable :=
    (principal * np_power libm_pow (1 + rate_per_period) periods)%float in
  Ok (np_round2 total_repayable).

(** The level payment, before the frame is built. *)
Definition monthly_payment_of (principal monthly_rate : float)
    (term_months : Z) : result float :=
  let* monthly_payment :=
    if (monthly_rate =? 0)%float then
      let* n := float_of_int term_months in
      float_truediv principal n
    else
      let* p1 := float_pow libm_pow (1 + monthly_rate)%float term_months in
      let num := (principal * (monthly_rate * p1))%float in
      let* p2 := float_pow libm_pow (1 + monthly_rate)%float term_months in
      float_truediv num (p2 - 1)%float in
  Ok (py_round2 monthly_payment).

(** The body of [for i in range(term_months)] at month index [i] with
    the running [balance]: what is stored in row [i] of the frame. *)
Definition amortization_row (monthly_rate monthly_payment : float)
    (term_months i : Z) (balance : float) : FrameRow :=
  let interest := (balance * monthly_rate)%float in
  let principal_payment := py_min (monthly_payment - interest)%float balance in
  let balance := (balance - principal_payment)%float in
  if (i =? term_months - 1) && (0 <? balance)%float then
    {| at_Month := i + 1;
       at_Payment := (principal_payment + balance)%float;
       at_Principal := (principal_payment + balance - interest)%float;
       at_Interest := interest;
       at_Balance := 0%float |}
  else
    {| at_Month := i + 1;
       at_Payment := monthly_payment;
       at_Principal := principal_payment;
       at_Interest := interest;
       at_Balance := py_max 0%float balance |}.

(** The loop, run for the [n] months that remain from month index [i];
    [balance = df.at[i, "Balance"]] carries the stored balance over. *)
Fixpoint amortization_rows (monthly_rate monthly_payment : float)
    (term_months : Z) (n : nat) (i : Z) (balance : float)
    : list FrameRow :=
  match n with
  | O => []
  | S n' =>
      let row := amortization_row monthly_rate monthly_payment term_months i balance in
      row :: amortization_rows monthly_rate monthly_payment term_months
               n' (i + 1) (at_Balance row)
  end.

(** The [Payment] column starts as int64 zeros.  It is still int64 after
    the loop when every payment stored in it could be held as an int. *)
Definition payment_column_int64 (frame : list FrameRow) : bool :=
  forallb (fun r => bool_decide (is_Some (int64_of_float (at_Payment r)))) frame.

(** [df.round(2)] on one row, and the record made of it: an int64 column is
    left alone, a float64 column is rounded. *)
Definition round_row (payment_int64 : bool) (r : FrameRow) : AmortizationRow :=
  {| Month := at_Month r;
     Payment := match payment_int64, int64_of_float (at_Payment r) with
                | true, Some n => Int n
                | _, _ => Float (np_round2 (at_Payment r))
                end;
     Principal := np_round2 (at_Principal r);
     Interest := np_round2 (at_Interest r);
     Balance := np_round2 (at_Balance r) |}.

Definition round_frame (frame : list FrameRow) : list AmortizationRow :=
  map (round_row (payment_column_int64 frame)) frame.

(** The three columns given to [pd.DataFrame] have lengths
    [len(range(1, n + 1))], [1 + len([0] * (n - 1))] and [len([0] * n)];
    the constructor raises [ValueError] unless they agree. *)
Definition frame_columns_agree (term_months : Z) : bool :=
  (Z.max 0 term_months =? 1 + Z.max 0 (term_months - 1)).

Definition generate_amortization_schedule (principal rate : float)
    (term_months : Z) : result (list AmortizationRow) :=
  let monthly_rate := (rate / 100 / 12)%float in
  let* monthly_payment := monthly_payment_of principal monthly_rate term_months in
  if negb (frame_columns_agree term_months)
  then Raise (ValueError "All arrays must be of the same length")
  else
    Ok (round_frame
          (amortization_rows monthly_rate monthly_payment term_months
             (Z.to_nat term_months) 0 principal)).

End LoanCalculator.

(** ** Text: how numbers are written *)

Module PyText.

Definition digit_char (d : Z) : ascii := ascii_of_nat (48 + Z.to_nat d).

Fixpoint digits_acc (fuel : nat) (n : Z) (acc : string) : string :=
  match fuel with
  | O => acc
  | S fuel' =>
      let acc' := String (digit_char (n mod 10)) acc in
      if n <? 10 then acc' else digits_acc fuel' (n / 10) acc'
  end.

(** Decimal digits of [n >= 0]. *)
Definition str_of_nonneg (n : Z) : string :=
  digits_acc (S (Z.to_nat (Z.log2 n))) n "".

(** [str(n)] for an int. *)
Definition str_of_int (n : Z) : string :=
  if n <? 0 then "-" +:+ str_of_nonneg (- n) else str_of_nonneg n.

Fixpoint repeat_char (c : ascii) (n : nat) : string :=
  match n with
  | O => ""
  | S n' => String c (repeat_char c n')
  end.

Fixpoint take_str (n : nat) (s : string) : string :=
  match n, s with
  | S n', String c s' => String c (take_str n' s')
  | _, _ => ""
  end.

Fixpoint drop_str (n : nat) (s : string) : string :=
  match n, s with
  | S n', String _ s' => drop_str n' s'
  | _, _ => s
  end.

(** Digits with a comma before every group of three, counted from the
    right. *)
Fixpoint group_thousands (s : string) : string :=
  match s with
  | "" => ""
  | String c s' =>
      let rest := group_thousands s' in
      if (0 <? String.length s')%nat && (Nat.modulo (String.length s') 3 =? 0)%nat
      then String c ("," +:+ rest)
      else String c rest
  end.

(** [format(x, ",.2f")]: the exact value rounded half-even to two
    decimals, with thousands separators. *)
Definition format_comma_2f (x : float) : string :=
  match Prim2SF x with
  | S754_nan => "nan"
  | S754_infinity s => if s then "-inf" else "inf"
  | S754_zero s => if s then "-0.00" else "0.00"
  | S754_finite s m e =>
      let n := if e <? 0 then div_half_even (Zpos m * 100) (2 ^ (- e))
               else Zpos m * 2 ^ e * 100 in
      let frac := n mod 100 in
      (if s then "-" else "")
      +:+ group_thousands (str_of_nonneg (n / 100))
      +:+ "." +:+ String (digit_char (frac / 10))
                    (String (digit_char (frac mod 10)) "")
  end.

(** The float that a decimal [d * 10 ^ k] with [0 < d] reads as. *)
Definition read_decimal (d k : Z) : float :=
  if 0 <=? k then float_of_Z (d * 10 ^ k)
  else SF2Prim (SF_of_ratio false d (10 ^ (- k))).

(** Among the multiples of [10 ^ k] next to [p / q], the nearest one that
    reads back as [x], if there is one. *)
Definition grid_candidate (x : float) (p q k : Z) : option Z :=
  let '(num, den) := if 0 <=? k then (p, q * 10 ^ k) else (p * 10 ^ (- k), q) in
  let lo := num / den in
  let hi := lo + 1 in
  let ok_lo := (0 <? lo) && (read_decimal lo k =? x)%float in
  let ok_hi := (read_decimal hi k =? x)%float in
  let near := div_half_even num den in
  match ok_lo, ok_hi with
  | true, true => Some near
  | true, false => Some lo
  | false, true => Some hi
  | false, false => None
  end.

(** The coarsest power-of-ten grid that has a point reading back as [x]:
    the shortest digit string of [x] and its decimal exponent. *)
Fixpoint shortest_digits (fuel : nat) (x : float) (p q k : Z) : Z * Z :=
  match fuel with
  | O => (0, 0)
  | S fuel' =>
      match grid_candidate x p q k with
      | Some d => (d, k)
      | None => shortest_digits fuel' x p q (k - 1)
      end
  end.

Definition two_digits (n : Z) : string :=
  if n <? 10 then "0" +:+ str_of_nonneg n else str_of_nonneg n.

(** The text of a float64 as NumPy's [str] and Python's [repr] give it:
    the shortest digits that read back as the same float, positional when
    1e-4 <= |x| < 1e16 and scientific otherwise. *)
Definition float_str (x : float) : string :=
  match Prim2SF x with
  | S754_nan => "nan"
  | S754_infinity s => if s then "-inf" else "inf"
  | S754_zero s => if s then "-0.0" else "0.0"
  | S754_finite s m e =>
      let '(p, q) := if 0 <=? e then (Zpos m * 2 ^ e, 1) else (Zpos m, 2 ^ (- e)) in
      let bits := Z.log2 (Zpos m) + 1 + e in
      let '(d, k) := shortest_digits 48 (abs x) p q (bits * 30103 / 100000 + 2) in
      let ds := str_of_nonneg d in
      let len := Z.of_nat (String.length ds) in
      let decpt := len + k in
      (if s then "-" else "") +:+
      (if (-4 <? decpt) && (decpt <=? 16) then
         if decpt <=? 0 then
           "0." +:+ repeat_char "0" (Z.to_nat (- decpt)) +:+ ds
         else if len <=? decpt then
           ds +:+ repeat_char "0" (Z.to_nat (decpt - len)) +:+ ".0"
         else
           take_str (Z.to_nat decpt) ds +:+ "." +:+ drop_str (Z.to_nat decpt) ds
       else
         take_str 1 ds
         +:+ (if 1 <? len then "." +:+ drop_str 1 ds else "")
         +:+ "e" +:+ (if decpt - 1 <? 0 then "-" else "+")
         +:+ two_digits (Z.abs (decpt - 1)))
  end.

End PyText.

Import PyText.

(** ** CSV export of the schedule *)

Section Csv.

(** [os.linesep], the line terminator [to_csv] uses by default. *)
Variable linesep : string.

(** A float64 cell: [NaN] is written as the empty [na_rep]. *)
Definition csv_cell (x : float) : string :=
  if is_nan x then "" else float_str x.

(** A cell of the [Payment] column. *)
Definition csv_number (v : number) : string :=
  match v with
  | Int n => str_of_int n
  | Float x => csv_cell x
  end.

Definition csv_line (r : AmortizationRow) : string :=
  str_of_int (Month r) +:+ "," +:+ csv_number (Payment r) +:+ ","
  +:+ csv_cell (Principal r) +:+ "," +:+ csv_cell (Interest r) +:+ ","
  +:+ csv_cell (Balance r) +:+ linesep.

Definition csv_header : string :=
  "Month,Payment,Principal,Interest,Balance" +:+ linesep.

(** [amortization_df.to_csv(csv_buffer, index=False)]. *)
Definition to_csv (rows : list AmortizationRow) : string :=
  csv_header +:+ String.concat "" (map csv_line rows).

End Csv.

(** ** LoanLedger and AdvanceOrchestrator (main.py, lines 36 and 102-191) *)

(** The process-wide [loans_db]. *)
Abbreviation ledger := (gmap string LoanRecord).

Definition option_bool (o : option bool) : bool :=
  match o with
  | Some b => b
  | None => false
  end.

(** What step 4 of [calculate_advance] leaves behind: the early CSV answer,
    or the values of [total_repayable] and [amortization_schedule]. *)
Inductive loan_step : Type :=
  | LoanCsv (csv_data : string)
  | LoanValues (total_repayable : option float)
               (amortization_schedule : option (list AmortizationRow)).

Section Orchestrator.

Variable libm_pow : float -> float -> float.
Variable linesep : string.

Definition ineligible_decision : AdvanceDecision :=
  {| eligible := false;
     advance_approved := false;
     max_advance := 0%float;
     approved_amount := 0%float;
     fee := 0%float;
     total_repayable := None;
     amortization_schedule := None;
     message := "Ineligible: Monthly salary is below the minimum threshold of $1000.";
     loan_id := None |}.

(** Step 3: the fee of an advance. *)
Definition advance_fee (advance_amount : float) (advance_approved : bool) : float :=
  if advance_approved
  then py_max 10%float (py_min 50%float (advance_amount * 0.05)%float)
  else 0%float.

(** Step 4: loan repayment, when the advance is approved and the three
    loan fields are truthy. *)
Definition loan_math (request : AdvanceRequest) (export_csv : bool)
    (advance_approved : bool) : result loan_step :=
  match loan_amount request, interest_rate request, loan_term request with
  | Some la, Some ir, Some lt =>
      if advance_approved && float_bool la && float_bool ir && negb (lt =? 0)
      then
        let* total := calculate_compound_interest libm_pow la ir lt in
        if option_bool (include_amortization request) || export_csv then
          let* schedule := generate_amortization_schedule libm_pow la ir lt in
          if export_csv then Ok (LoanCsv (to_csv linesep schedule))
          else Ok (LoanValues (Some total) (Some schedule))
        else Ok (LoanValues (Some total) None)
      else Ok (LoanValues None None)
  | _, _, _ => Ok (LoanValues None None)
  end.

Definition loan_record (request : AdvanceRequest) (uuid4 now : string)
    (fee : float) (total : option float)
    (schedule : option (list AmortizationRow)) : LoanRecord :=
  {| rec_loan_id := uuid4;
     rec_advance_amount := advance_amount request;
     rec_fee := fee;
     rec_timestamp := now;
     rec_gross_salary := gross_salary request;
     rec_pay_frequency := pay_frequency request;
     rec_loan_amount := loan_amount request;
     rec_interest_rate := interest_rate request;
     rec_loan_term := loan_term request;
     rec_total_repayable := total;
     rec_amortization_schedule := schedule |}.

(** Step 6: the message. *)
Definition decision_message (request : AdvanceRequest)
    (advance_approved : bool) (max_advance fee : float)
    (total : option float) : string :=
  let base :=
    if advance_approved
    then "Advance approved! Amount: $" +:+ format_comma_2f (advance_amount request)
         +:+ ", Fee: $" +:+ format_comma_2f fee
    else "Requested advance ($" +:+ format_comma_2f (advance_amount request)
         +:+ ") exceeds maximum allowed ($" +:+ format_comma_2f max_advance
         +:+ ")." in
  match total with
  | Some t =>
      if advance_approved && float_bool t
      then base +:+ ". Loan repayable: $" +:+ format_comma_2f t +:+ " over "
           +:+ from_option str_of_int "None" (loan_term request) +:+ " months."
      else base
  | None => base
  end.

(** The [try] block of [calculate_advance]: [uuid4] is what
    [str(uuid.uuid4())] gives and [now] what [datetime.now().isoformat()]
    gives, should they be called; a query without [export_csv] has
    [export_csv = false]. *)
Definition calculate_advance_try (uuid4 now : string) (loans_db : ledger)
    (request : AdvanceRequest) (export_csv : bool)
    : result (advance_body * ledger) :=
  let* monthly_salary :=
    convert_to_monthly_salary (gross_salary request) (pay_frequency request) in
  let eligible := (1000 <=? monthly_salary)%float in
  if negb eligible then Ok (Decision ineligible_decision, loans_db)
  else
    let max_advance := (monthly_salary * 0.5)%float in
    let advance_approved := (advance_amount request <=? max_advance)%float in
    let approved_amount := if advance_approved then advance_amount request else 0%float in
    let fee := advance_fee (advance_amount request) advance_approved in
    let* step := loan_math request export_csv advance_approved in
    match step with
    | LoanCsv csv_data =>
        Ok (CsvExport csv_data "amortization_schedule.csv", loans_db)
    | LoanValues total_repayable amortization_schedule =>
        let loan_id := if advance_approved then Some uuid4 else None in
        let loans_db :=
          if advance_approved
          then <[uuid4 := loan_record request uuid4 now fee total_repayable
                            amortization_schedule]> loans_db
          else loans_db in
        Ok (Decision
              {| eligible := eligible;
                 advance_approved := advance_approved;
                 max_advance := max_advance;
                 approved_amount := approved_amount;
                 fee := fee;
                 total_repayable := total_repayable;
                 amortization_schedule := amortization_schedule;
                 message := decision_message request advance_approved
                              max_advance fee total_repayable;
                 loan_id := loan_id |},
            loans_db)
    end.

(** [POST /calculate_advance]: the answer and the ledger afterwards. *)
Definition calculate_advance (uuid4 now : string) (loans_db : ledger)
    (request : AdvanceRequest) (export_csv : bool)
    : response advance_body * ledger :=
  match calculate_advance_try uuid4 now loans_db request export_csv with
  | Ok (body, loans_db') => (Json body, loans_db')
  | Raise (ValueError msg) => (HTTPException 400 msg, loans_db)
  | Raise _ => (HTTPException 500 "Internal server error", loans_db)
  end.

End Orchestrator.

(** [GET /loan/{loan_id}]. *)
Definition get_loan (loans_db : ledger) (loan_id : string) : response LoanRecord :=
  match loans_db !! loan_id with
  | None => HTTPException 404 "Loan not found"
  | Some r => Json r
  end.

(** [GET /health]. *)
Definition health_check : response (list (string * string)) :=
  Json [("status", "healthy")].

(** ** The front end's retry loop (front.py, lines 8-18) *)

Module Frontend.

(** What one turn of the [try] block comes to: [response.json()] is
    returned, or one of [requests.post], [raise_for_status] and [json]
    raises, either an exception that is a [requests.RequestException] or
    another one. *)
Inductive attempt (A E : Type) : Type :=
  | Answered (body : A)
  | RequestException (e : E)
  | OtherException (e : E).

Arguments Answered {A E} body.
Arguments RequestException {A E} e.
Arguments OtherException {A E} e.

(** How the call ends: it returns, [None] when the loop is over without a
    [return], or an exception leaves it. *)
Inductive ending (A E : Type) : Type :=
  | Returned (v : option A)
  | Raised (e : E).

Arguments Returned {A E} v.
Arguments Raised {A E} e.

(** What the call has done: the requests it posted and the seconds it
    slept. *)
Record activity : Type := {
  posts : nat;
  slept : Z
}.

Section Retry.

Context {U P A E : Type}.

(** [requests_post url payload timeout k] is what the attempt made after
    [k] earlier requests comes to. *)
Variable requests_post : U -> P -> Z -> nat -> attempt A E.

(** [for i in range(max_retries)], at index [i] with [remaining] turns to
    go. *)
Fixpoint retry_loop (url : U) (payload : P) (max_retries timeout : Z)
    (remaining : nat) (i : Z) (done : activity) : ending A E * activity :=
  match remaining with
  | O => (Returned None, done)
  | S remaining' =>
      let posted := {| posts := S (posts done); slept := slept done |} in
      match requests_post url payload timeout (posts done) with
      | Answered body => (Returned (Some body), posted)
      | RequestException e =>
          if i <? max_retries - 1
          then retry_loop url payload max_retries timeout remaining' (i + 1)
                 {| posts := posts posted; slept := slept posted + 5 |}
          else (Raised e, posted)
      | OtherException e => (Raised e, posted)
      end
  end.

(** The defaults are [max_retries = 10] and [timeout = 5]. *)
Definition get_backend_response (url : U) (payload : P) (max_retries timeout : Z)
    : ending A E * activity :=
  retry_loop url payload max_retries timeout (Z.to_nat max_retries) 0
    {| posts := 0; slept := 0 |}.

End Retry.

End Frontend.

Import Frontend.

(** ** A reference power for evaluating the model

    Theorems below hold for every [libm_pow].  To run the model on concrete
    requests a power function is needed: [pow_exact] is the exact power,
    correctly rounded, of a positive finite base to a whole-number exponent,
    which is what the C library returns whenever that power is itself a
    binary64 number.  It is [nan] elsewhere and is not used there. *)
Definition pow_exact (x y : float) : float :=
  match Prim2SF x, Prim2SF y with
  | S754_finite false m e, S754_zero _ => 1%float
  | S754_finite false m e, S754_finite sy my ey =>
      let whole := if 0 <=? ey then Some (Zpos my * 2 ^ ey)
                   else if Zpos my mod 2 ^ (- ey) =? 0
                        then Some (Zpos my / 2 ^ (- ey)) else None in
      match whole with
      | Some n =>
          if sy then
            let '(q, e', l) :=
              SFdiv_core_binary prec emax 1 0 (Zpos m ^ n) (e * n) in
            SF2Prim (binary_round_aux prec emax false q e' l)
          else SF2Prim (binary_normalize prec emax (Zpos m ^ n) (e * n) false)
      | None => nan
      end
  | _, _ => nan
  end.

(** The line feed, [os.linesep] on POSIX systems. *)
Definition LF : string := String (ascii_of_nat 10) "".

(** ** Predicates and sample requests used in the statements *)

(** A zero, a positive number or +infinity: what [0 <= x] means. *)
Definition SFnonneg (r : spec_float) : bool :=
  match r with
  | S754_zero _ => true
  | S754_finite s _ _ => negb s
  | S754_infinity s => negb s
  | S754_nan => false
  end.

(** A zero, a positive number, +infinity or NaN: what [not (x < 0)] means. *)
Definition SFnot_negative (r : spec_float) : bool :=
  match r with
  | S754_nan => true
  | _ => SFnonneg r
  end.

(** A zero, a negative number, -infinity or NaN: what [not (0 < x)] means. *)
Definition SFnot_positive (r : spec_float) : bool :=
  match r with
  | S754_zero _ => true
  | S754_infinity s => s
  | S754_nan => true
  | S754_finite s _ _ => s
  end.

Definition valid_pay_frequency (s : string) : bool :=
  existsb (String.eqb s) ["Weekly"; "Bi-Weekly"; "Monthly"; "Annually"].

(** The three loan fields are present and truthy. *)
Definition loan_fields_truthy (request : AdvanceRequest) : bool :=
  match loan_amount request, interest_rate request, loan_term request with
  | Some la, Some ir, Some lt => float_bool la && float_bool ir && negb (lt =? 0)
  | _, _, _ => false
  end.

(** The decision of an eligible request whose monthly salary is [ms], given
    what loan maths left in [total] and [schedule]. *)
Definition decision_of (uuid4 : string) (request : AdvanceRequest) (ms : float)
    (total : option float) (schedule : option (list AmortizationRow))
    : AdvanceDecision :=
  let max_advance := (ms * 0.5)%float in
  let approved := (advance_amount request <=? max_advance)%float in
  let fee := advance_fee (advance_amount request) approved in
  {| eligible := true;
     advance_approved := approved;
     max_advance := max_advance;
     approved_amount := if approved then advance_amount request else 0%float;
     fee := fee;
     total_repayable := total;
     amortization_schedule := schedule;
     message := decision_message request approved max_advance fee total;
     loan_id := if approved then Some uuid4 else None |}.





(** The largest loan term, [3 * 2 ^ 51] months, up to which [n * t] gives
    [term_months] back exactly (see [periods_exact] and
    [periods_first_inexact]). *)
Definition max_exact_term : Z := 6755399441055744.

(** An advance request without loan fields. *)
Definition advance_only (salary : float) (frequency : string) (amount : float)
    : AdvanceRequest :=
  {| gross_salary := salary;
     pay_frequency := frequency;
     advance_amount := amount;
     loan_amount := None;
     interest_rate := None;
     loan_term := None;
     include_amortization := Some false |}.

(** An advance request with a loan and its schedule. *)
Definition advance_with_loan (salary : float) (frequency : string)
    (amount la ir : float) (lt : Z) : AdvanceRequest :=
  {| gross_salary := salary;
     pay_frequency := frequency;
     advance_amount := amount;
     loan_amount := Some la;
     interest_rate := Some ir;
     loan_term := Some lt;
     include_amortization := Some true |}.

(** A loan of 700 at 1200 percent over three months: the monthly rate is 1,
    every power is a power of two and every entry of the schedule is an
    exact binary64 number; the payments are whole, so that the [Payment]
    column stays int64. *)
Definition export_request : AdvanceRequest :=
  advance_with_loan 4000 "Monthly" 1000 700 1200 3.

Definition export_rows : list AmortizationRow :=
  [ {| Month := 1; Payment := Int 800; Principal := 100; Interest := 700; Balance := 600 |};
    {| Month := 2; Payment := Int 800; Principal := 200; Interest := 600; Balance := 400 |};
    {| Month := 3; Payment := Int 800; Principal := 400; Interest := 400; Balance := 0 |} ].

Definition export_csv_text : string :=
  "Month,Payment,Principal,Interest,Balance" +:+ LF
  +:+ "1,800,100.0,700.0,600.0" +:+ LF
  +:+ "2,800,200.0,600.0,400.0" +:+ LF
  +:+ "3,800,400.0,400.0,0.0" +:+ LF.

(** The same loan asked for with an advance of zero. *)
Definition zero_advance_export_request : AdvanceRequest :=
  advance_with_loan 4000 "Monthly" 0 700 1200 3.





(** The record that an approved advance of 1000 on a monthly salary of 4000
    leaves in the ledger. *)
Definition sample_record : LoanRecord :=
  {| rec_loan_id := "id";
     rec_advance_amount := 1000;
     rec_fee := 50;
     rec_timestamp := "now";
     rec_gross_salary := 4000;
     rec_pay_frequency := "Monthly";
     rec_loan_amount := None;
     rec_interest_rate := None;
     rec_loan_term := None;
     rec_total_repayable := None;
     rec_amortization_schedule := None |}.

(** A backend that fails [n] times with a connection error and answers
    afterwards. *)
Definition flaky_backend (n : nat) (url payload : string) (timeout : Z) (k : nat)
    : attempt string string :=
  if (k <? n)%nat then RequestException "ConnectionError" else Answered "ok".

(** * Properties *)

(** ** Evaluations of the definitions *)

Example rint_ties :
  (rint 2.5, rint 3.5, rint (-2.5)%float) = (2, 4, -2)%float.
Proof. vm_compute. reflexivity. Qed.

Example py_round2_half_even :
  (py_round2 0.125, py_round2 0.375, py_round2 85.60748178846737)
  = (0.12, 0.38, 85.61)%float.
Proof. vm_compute. reflexivity. Qed.

Example np_round2_cent :
  (np_round2 1126.8250301319698, np_round2 0) = (1126.83, 0)%float.
Proof. vm_compute. reflexivity. Qed.

Example int_truediv_terms :
  (int_truediv 12 12, int_truediv 6 12, int_truediv 1 0)
  = (Ok 1%float, Ok 0.5%float, Raise ZeroDivisionError).
Proof. vm_compute. reflexivity. Qed.

Example weekly_1000_is_4333 :
  convert_to_monthly_salary 1000 "Weekly" = Ok 4333.333333333333%float
  /\ convert_to_monthly_salary 1000 "Fortnightly"
     = Raise (ValueError "Invalid pay_frequency").
Proof. split; vm_compute; reflexivity. Qed.

Example str_of_int_samples :
  (str_of_int 0, str_of_int 12, str_of_int (-305)) = ("0", "12", "-305").
Proof. vm_compute. reflexivity. Qed.

Example format_comma_2f_samples :
  (format_comma_2f 1000, format_comma_2f 50, format_comma_2f 1234567.891,
   format_comma_2f 0.125, format_comma_2f (-0.5)%float)
  = ("1,000.00", "50.00", "1,234,567.89", "0.12", "-0.50").
Proof. vm_compute. reflexivity. Qed.

Example float_str_samples :
  (float_str 0, float_str 85.61, float_str 100, float_str 0.1,
   float_str 1126.83, float_str 1e16, float_str 0.00001, float_str 1e15,
   float_str 0.0001, float_str 5e-324, float_str 1.7976931348623157e308,
   float_str 0.30000000000000004, float_str (-2.5)%float)
  = ("0.0", "85.61", "100.0", "0.1", "1126.83", "1e+16", "1e-05",
     "1000000000000000.0", "0.0001", "5e-324", "1.7976931348623157e+308",
     "0.30000000000000004", "-2.5").
Proof. vm_compute. reflexivity. Qed.

Example pow_exact_samples :
  (pow_exact 2 3, pow_exact 2 (-2)%float, pow_exact 1.5 2, pow_exact 1 7,
   pow_exact 10 (-1)%float)
  = (8, 0.25, 2.25, 1, 0.1)%float.
Proof. vm_compute. reflexivity. Qed.

Example float_pow_special_cases :
  (float_pow pow_exact 1 (-1), float_pow pow_exact 0 (-1), float_pow pow_exact 2 1024,
   float_pow pow_exact (-2) 3, float_pow pow_exact 7 0)
  = (Ok 1%float, Raise ZeroDivisionError, Raise OverflowError, Ok (-8)%float, Ok 1%float).
Proof. vm_compute. reflexivity. Qed.

Example schedule_of_export_request :
  generate_amortization_schedule pow_exact 700 1200 3 = Ok export_rows.
Proof. vm_compute. reflexivity. Qed.

Example advance_of_1000_on_4000 :
  exists d,
    calculate_advance pow_exact LF "id" "now" ∅ (advance_only 4000 "Monthly" 1000) false
    = (Json (Decision d), <["id" := sample_record]> ∅)
    /\ eligible d = true /\ max_advance d = 2000%float
    /\ advance_approved d = true /\ fee d = 50%float
    /\ total_repayable d = None /\ loan_id d = Some "id"
    /\ message d = "Advance approved! Amount: $1,000.00, Fee: $50.00".
Proof. eexists. split; [vm_compute; reflexivity|]. repeat split. Qed.

(** ** Signs of binary64 results

    [0 <= x] is read off the sign of the specification float, and rounding
    a non-negative mantissa never changes the sign. *)

Ltac split_all := repeat match goal with |- _ /\ _ => split end.

Lemma leb_zero_nonneg (x : float) : (0 <=? x)%float = SFnonneg (Prim2SF x).
Proof.
  rewrite leb_spec. change (Prim2SF 0) with (S754_zero false).
  destruct (Prim2SF x) as [s|s| |s m e]; try destruct s; reflexivity.
Qed.

Lemma shr_1_nonneg mrs : 0 <= shr_m mrs -> 0 <= shr_m (shr_1 mrs).
Proof.
  destruct mrs as [m r s]. simpl.
  destruct m as [|p|p]; [| destruct p | ]; simpl; lia.
Qed.

Lemma iter_shr_1_nonneg p : forall mrs,
  0 <= shr_m mrs -> 0 <= shr_m (SpecFloat.iter_pos shr_1 p mrs).
Proof.
  induction p as [p IH|p IH|]; intros mrs H; simpl.
  - apply IH, IH, shr_1_nonneg, H.
  - apply IH, IH, H.
  - apply shr_1_nonneg, H.
Qed.

Lemma shr_fexp_nonneg m e l :
  0 <= m -> 0 <= shr_m (fst (shr_fexp prec emax m e l)).
Proof.
  intros H. unfold shr_fexp, shr.
  assert (H0 : 0 <= shr_m (shr_record_of_loc m l)).
  { destruct l as [|[]]; simpl; exact H. }
  destruct (fexp prec emax (Zdigits2 m + e) - e); simpl; auto.
  apply iter_shr_1_nonneg, H0.
Qed.

Lemma round_nearest_even_nonneg m l : 0 <= m -> 0 <= round_nearest_even m l.
Proof.
  intros H. destruct l as [|[]]; simpl; try lia.
  destruct (Z.even m); lia.
Qed.

Lemma binary_round_aux_nonneg m e l :
  0 <= m -> SFnonneg (binary_round_aux prec emax false m e l) = true.
Proof.
  intros H. unfold binary_round_aux.
  pose proof (shr_fexp_nonneg m e l H) as H1.
  destruct (shr_fexp prec emax m e l) as [mrs' e']. simpl in H1.
  pose proof (shr_fexp_nonneg _ e' loc_Exact
                (round_nearest_even_nonneg _ (loc_of_shr_record mrs') H1)) as H2.
  destruct (shr_fexp prec emax _ e' loc_Exact) as [mrs'' e'']. simpl in H2.
  destruct (shr_m mrs'') as [|p|p]; try reflexivity.
  - destruct (e'' <=? emax - prec); reflexivity.
  - lia.
Qed.

Lemma binary_round_nonneg m e : SFnonneg (binary_round prec emax false m e) = true.
Proof.
  unfold binary_round.
  destruct (shl_align m e _) as [mz ez].
  apply binary_round_aux_nonneg. lia.
Qed.

Lemma binary_normalize_nonneg z e s :
  0 <= z -> SFnonneg (binary_normalize prec emax z e s) = true.
Proof.
  intros H. destruct z as [|p|p]; simpl; try reflexivity; try lia.
  apply binary_round_nonneg.
Qed.

Lemma SFmul_nonneg a m e :
  SFnonneg a = true -> SFnonneg (SFmul prec emax a (S754_finite false m e)) = true.
Proof.
  destruct a as [s|s| |s m' e']; simpl; try discriminate; intros H.
  - reflexivity.
  - destruct s; [discriminate|reflexivity].
  - destruct s; [discriminate|]. apply binary_round_aux_nonneg. lia.
Qed.

Lemma SFdiv_nonneg a m e :
  SFnonneg a = true -> SFnonneg (SFdiv prec emax a (S754_finite false m e)) = true.
Proof.
  destruct a as [s|s| |s m' e']; simpl; try discriminate; intros H.
  - reflexivity.
  - destruct s; [discriminate|reflexivity].
  - destruct s; [discriminate|]. simpl.
    unfold SFdiv_core_binary.
    set (e1 := Z.min _ _). set (s1 := e' - e - e1).
    set (m1 := match s1 with Z0 => Zpos m' | Zpos _ => Z.shiftl (Zpos m') s1 | Zneg _ => 0 end).
    assert (Hm1 : 0 <= m1).
    { unfold m1. destruct s1; try lia. apply Z.shiftl_nonneg. lia. }
    pose proof (Z_div_mod m1 (Zpos m) ltac:(lia)) as Hd.
    destruct (Z.div_eucl m1 (Zpos m)) as [q r].
    apply binary_round_aux_nonneg. nia.
Qed.

Lemma mul_nonneg (x c : float) m e :
  Prim2SF c = S754_finite false m e ->
  (0 <=? x)%float = true -> (0 <=? x * c)%float = true.
Proof.
  intros Hc. rewrite !leb_zero_nonneg, mul_spec, Hc. apply SFmul_nonneg.
Qed.

Lemma div_nonneg (x c : float) m e :
  Prim2SF c = S754_finite false m e ->
  (0 <=? x)%float = true -> (0 <=? x / c)%float = true.
Proof.
  intros Hc. rewrite !leb_zero_nonneg, div_spec, Hc. apply SFdiv_nonneg.
Qed.

Lemma SF2Prim_nonneg r :
  SFnonneg r = true -> SFnonneg (Prim2SF (SF2Prim r)) = true.
Proof.
  destruct r as [s|s| |s m e]; simpl; try discriminate; intros H.
  - destruct s; reflexivity.
  - destruct s; [discriminate|reflexivity].
  - destruct s; [discriminate|].
    rewrite Z_ldexp_spec, of_uint63_spec.
    pose proof (Uint63.to_Z_bounded (Uint63.of_Z (Zpos m))) as Hb.
    pose proof (binary_normalize_nonneg (Uint63.to_Z (Uint63.of_Z (Zpos m))) 0 false
                  ltac:(lia)) as Hn.
    destruct (binary_normalize prec emax _ 0 false) as [s|s| |s m' e'];
      simpl in *; try discriminate; auto.
    destruct s; [discriminate|]. apply binary_round_nonneg.
Qed.

Lemma div_half_even_nonneg p q : 0 <= p -> 0 < q -> 0 <= div_half_even p q.
Proof.
  intros Hp Hq. unfold div_half_even.
  pose proof (Z_div_mod p q ltac:(lia)) as Hd.
  destruct (Z.div_eucl p q) as [a r].
  assert (0 <= a) by nia.
  destruct (2 * r ?= q); [destruct (Z.even a)| |]; lia.
Qed.

Lemma rint_nonneg x : (0 <=? x)%float = true -> (0 <=? rint x)%float = true.
Proof.
  rewrite !leb_zero_nonneg. unfold rint.
  destruct (Prim2SF x) as [s|s| |s m e] eqn:E; rewrite ?E; auto.
  simpl. intros H. destruct s; [discriminate|].
  destruct (e <? 0) eqn:He; [|rewrite E; reflexivity].
  apply SF2Prim_nonneg, binary_normalize_nonneg. simpl.
  apply div_half_even_nonneg; [lia|]. apply Z.pow_pos_nonneg; lia.
Qed.

Lemma np_round2_nonneg x : (0 <=? x)%float = true -> (0 <=? np_round2 x)%float = true.
Proof.
  intros H. unfold np_round2.
  eapply div_nonneg; [vm_compute; reflexivity|].
  apply rint_nonneg. eapply mul_nonneg; [vm_compute; reflexivity|exact H].
Qed.

Lemma ltb_leb (x y : float) : (x <? y)%float = true -> (x <=? y)%float = true.
Proof.
  rewrite ltb_spec, leb_spec. unfold SFltb, SFleb.
  destruct (SFcompare (Prim2SF x) (Prim2SF y)) as [[]|]; congruence.
Qed.

Lemma py_max_zero_nonneg (b : float) : (0 <=? py_max 0 b)%float = true.
Proof.
  unfold py_max. destruct (0 <? b)%float eqn:H; [apply ltb_leb, H|reflexivity].
Qed.

Lemma leb_1000_nonneg ms : (1000 <=? ms)%float = true -> (0 <=? ms)%float = true.
Proof.
  rewrite leb_zero_nonneg, leb_spec.
  change (Prim2SF 1000) with (S754_finite false 8796093022208000 (-43)).
  destruct (Prim2SF ms) as [s|s| |s m e]; try destruct s; cbv; congruence.
Qed.

Lemma half_salary_nonneg ms :
  (1000 <=? ms)%float = true -> (0 <=? ms * 0.5)%float = true.
Proof.
  intros H. eapply mul_nonneg; [vm_compute; reflexivity|].
  apply leb_1000_nonneg, H.
Qed.

Lemma eqb_zero_cases (x : float) :
  (x =? 0)%float = true -> x = 0%float \/ x = neg_zero.
Proof.
  rewrite FloatAxioms.eqb_spec. change (Prim2SF 0) with (S754_zero false).
  destruct (Prim2SF x) as [s|s| |s m e] eqn:E; try destruct s; cbv;
    try discriminate; intros _.
  - right. rewrite <- (SF2Prim_Prim2SF x), E. reflexivity.
  - left. rewrite <- (SF2Prim_Prim2SF x), E. reflexivity.
Qed.

Lemma zero_leb (a x : float) :
  (a =? 0)%float = true -> (0 <=? x)%float = true -> (a <=? x)%float = true.
Proof.
  intros Ha. destruct (eqb_zero_cases a Ha) as [-> | ->]; [auto|].
  rewrite !leb_spec.
  change (Prim2SF 0) with (S754_zero false).
  change (Prim2SF neg_zero) with (S754_zero true).
  destruct (Prim2SF x) as [s|s| |s m e]; auto.
Qed.

(** ** Loan terms on which [n * t] is exact *)

(** Bit length. *)
Lemma digits2_pos_size p : digits2_pos p = Pos.size p.
Proof. induction p; simpl; congruence. Qed.

Lemma Zdigits2_log2 N : 0 < N -> Zdigits2 N = Z.log2 N + 1.
Proof.
  destruct N as [|p|p]; try lia. intros _. simpl. rewrite digits2_pos_size.
  destruct p; simpl; lia.
Qed.

Lemma Zdigits2_bounds N d : 0 < d -> 2 ^ (d - 1) <= N < 2 ^ d -> Zdigits2 N = d.
Proof.
  intros Hd H.
  assert (0 < N) by (pose proof (Z.pow_pos_nonneg 2 (d - 1)); lia).
  rewrite Zdigits2_log2 by assumption.
  rewrite (Z.log2_unique N (d - 1)); try lia.
  replace (Z.succ (d - 1)) with d by lia. exact H.
Qed.

Lemma digits2_pos_bounds p d :
  0 < d -> 2 ^ (d - 1) <= Zpos p < 2 ^ d -> Zpos (digits2_pos p) = d.
Proof. intros Hd H. apply (Zdigits2_bounds (Zpos p) d Hd H). Qed.

(** One right shift. *)
Lemma shr_1_even a r s :
  0 <= a -> shr_1 (Build_shr_record (2 * a) r s) = Build_shr_record a false (r || s).
Proof. intros H. destruct a as [|p|p]; simpl; try reflexivity; lia. Qed.

Lemma shr_1_odd a r s :
  0 <= a -> shr_1 (Build_shr_record (2 * a + 1) r s) = Build_shr_record a true (r || s).
Proof. intros H. destruct a as [|p|p]; simpl; try reflexivity; lia. Qed.

Lemma iter_pos_nat {A} (f : A -> A) p x :
  SpecFloat.iter_pos f p x = Nat.iter (Pos.to_nat p) f x.
Proof.
  revert x. induction p as [p IH|p IH|]; intros x; cbn [SpecFloat.iter_pos].
  - rewrite !IH, Pos2Nat.inj_xI.
    replace (S (2 * Pos.to_nat p)) with (Pos.to_nat p + Pos.to_nat p + 1)%nat by lia.
    rewrite !Nat.iter_add. reflexivity.
  - rewrite !IH, Pos2Nat.inj_xO.
    replace (2 * Pos.to_nat p)%nat with (Pos.to_nat p + Pos.to_nat p)%nat by lia.
    rewrite Nat.iter_add. reflexivity.
  - reflexivity.
Qed.

(** Shifting out zero bits is exact. *)
Lemma iter_shr_1_zeros n : forall a,
  0 <= a ->
  Nat.iter n shr_1 (Build_shr_record (a * 2 ^ Z.of_nat n) false false)
  = Build_shr_record a false false.
Proof.
  induction n as [|n IH]; intros a Ha.
  - simpl. f_equal. lia.
  - rewrite Nat.iter_succ_r.
    replace (a * 2 ^ Z.of_nat (S n)) with (2 * (a * 2 ^ Z.of_nat n))
      by (rewrite Nat2Z.inj_succ, Z.pow_succ_r by lia; ring).
    rewrite shr_1_even by (apply Z.mul_nonneg_nonneg; [lia|apply Z.pow_nonneg; lia]).
    simpl. apply IH, Ha.
Qed.

Lemma Zdigits2_spec N : 0 < N -> 2 ^ (Zdigits2 N - 1) <= N < 2 ^ Zdigits2 N.
Proof.
  intros H. rewrite Zdigits2_log2 by assumption.
  replace (Z.log2 N + 1 - 1) with (Z.log2 N) by lia.
  apply Z.log2_spec, H.
Qed.

(** The exponent function on normal numbers. *)
Lemma fexp_normal d : -1021 <= d -> fexp prec emax d = d - 53.
Proof.
  intros H. unfold fexp, emin, prec, emax. change IntDef.Z.max with Z.max. lia.
Qed.

Lemma shr_fexp_shift m e l d n :
  Zdigits2 m = d -> -1021 <= d + e -> n = d - 53 -> 0 < n ->
  shr_fexp prec emax m e l
  = (Nat.iter (Z.to_nat n) shr_1 (shr_record_of_loc m l), e + n).
Proof.
  intros Hd He Hn Hpos. unfold shr_fexp. rewrite Hd, fexp_normal by assumption.
  replace (d + e - 53 - e) with n by lia.
  destruct n as [|p|p]; try lia. unfold shr. rewrite iter_pos_nat. reflexivity.
Qed.

Lemma shr_fexp_noshift m e l :
  Zdigits2 m = 53 -> -1074 <= e ->
  shr_fexp prec emax m e l = (shr_record_of_loc m l, e).
Proof.
  intros Hd He. unfold shr_fexp. rewrite Hd, fexp_normal by lia.
  replace (53 + e - 53 - e) with 0 by lia. reflexivity.
Qed.

Lemma loc_of_shr_record_of_loc m l :
  loc_of_shr_record (shr_record_of_loc m l) = l.
Proof. destruct l as [|[]]; reflexivity. Qed.

Lemma shr_m_of_loc m l : shr_m (shr_record_of_loc m l) = m.
Proof. destruct l as [|[]]; reflexivity. Qed.

(** Once the first shift leaves a 53-bit mantissa, rounding is finished. *)
Lemma binary_round_aux_final sx mx ex lx mrs e' m1 :
  shr_fexp prec emax mx ex lx = (mrs, e') ->
  round_nearest_even (shr_m mrs) (loc_of_shr_record mrs) = m1 ->
  2 ^ 52 <= m1 < 2 ^ 53 -> -1074 <= e' <= 971 ->
  binary_round_aux prec emax sx mx ex lx = S754_finite sx (Z.to_pos m1) e'.
Proof.
  intros Hs Hm Hb He. unfold binary_round_aux. rewrite Hs, Hm.
  rewrite shr_fexp_noshift by (try apply Zdigits2_bounds; lia).
  cbn [shr_record_of_loc shr_m].
  destruct m1 as [|p|p]; try lia.
  replace (e' <=? emax - prec) with true; [reflexivity|].
  symmetry. apply Z.leb_le. unfold emax, prec. lia.
Qed.

Lemma pos_iter_xO p d : Zpos (Pos.iter xO p d) = Zpos p * 2 ^ Zpos d.
Proof.
  induction d as [|d IH] using Pos.peano_ind.
  - simpl. lia.
  - rewrite Pos.iter_succ, Pos2Z.inj_xO, IH, Pos2Z.inj_succ, Z.pow_succ_r by lia. ring.
Qed.

(** A positive integer scaled to a 53-bit mantissa. *)
Lemma normalize_bounds k c :
  0 < k -> Zdigits2 k = 53 - c -> 0 <= c -> 2 ^ 52 <= k * 2 ^ c < 2 ^ 53.
Proof.
  intros Hk Hd Hc. pose proof (Zdigits2_spec k Hk) as H. rewrite Hd in H.
  assert (0 < 53 - c) by (rewrite <- Hd, Zdigits2_log2 by assumption;
                          pose proof (Z.log2_nonneg k); lia).
  replace (2 ^ 52) with (2 ^ (53 - c - 1) * 2 ^ c)
    by (rewrite <- Z.pow_add_r by lia; f_equal; lia).
  replace (2 ^ 53) with (2 ^ (53 - c) * 2 ^ c)
    by (rewrite <- Z.pow_add_r by lia; f_equal; lia).
  assert (0 < 2 ^ c) by (apply Z.pow_pos_nonneg; lia).
  split; [apply Z.mul_le_mono_nonneg_r|apply Z.mul_lt_mono_pos_r]; lia.
Qed.

Lemma float_of_Z_normal k c :
  0 < k -> Zdigits2 k = 53 - c -> 0 <= c ->
  float_of_Z k = SF2Prim (S754_finite false (Z.to_pos (k * 2 ^ c)) (- c)).
Proof.
  intros Hk Hd Hc. pose proof (normalize_bounds k c Hk Hd Hc) as Hb.
  assert (c <= 52)
    by (pose proof (Zdigits2_log2 k Hk); pose proof (Z.log2_nonneg k); lia).
  destruct k as [|p|p]; try lia.
  unfold float_of_Z, binary_normalize, binary_round. f_equal.
  change (Z.pos (digits2_pos p)) with (Zdigits2 (Z.pos p)). rewrite Hd.
  rewrite fexp_normal by lia. unfold shl_align.
  replace (53 - c + 0 - 53) with (- c) by lia.
  replace (- c - 0) with (- c) by lia.
  destruct c as [|d|d]; try lia; cbn [Z.opp].
  - replace (Z.pos p * 2 ^ 0) with (Z.pos p) in * by lia.
    apply binary_round_aux_final with (mrs := shr_record_of_loc (Z.pos p) loc_Exact);
      try lia; try reflexivity.
    apply shr_fexp_noshift; [apply Zdigits2_bounds|]; lia.
  - rewrite <- pos_iter_xO in *.
    apply (binary_round_aux_final false _ _ _
             (shr_record_of_loc (Z.pos (Pos.iter xO p d)) loc_Exact));
      try lia; try reflexivity.
    apply shr_fexp_noshift; [apply Zdigits2_bounds|]; lia.
Qed.

(** The quotient by twelve before rounding. *)
Lemma SFdiv_core_12 k c :
  0 < k -> Zdigits2 k = 53 - c -> 0 <= c ->
  SFdiv_core_binary prec emax k 0 12 0
  = (16 * (k * 2 ^ c) / 12, - c - 4, new_location 12 ((16 * (k * 2 ^ c)) mod 12)).
Proof.
  intros Hk Hd Hc.
  assert (c <= 52)
    by (pose proof (Zdigits2_log2 k Hk); pose proof (Z.log2_nonneg k); lia).
  unfold SFdiv_core_binary. rewrite Hd.
  change (Zdigits2 12) with 4.
  rewrite fexp_normal by lia.
  change IntDef.Z.min with Z.min. change IntDef.Z.shiftl with Z.shiftl.
  change IntDef.Z.div_eucl with Z.div_eucl.
  replace (Z.min (53 - c + 0 - (4 + 0) - 53) (0 - 0)) with (- c - 4) by lia.
  replace (0 - 0 - (- c - 4)) with (c + 4) by lia.
  cbv zeta.
  destruct (c + 4) as [|s|s] eqn:Hs; try lia.
  rewrite <- Hs, Z.shiftl_mul_pow2 by lia.
  replace (k * 2 ^ (c + 4)) with (16 * (k * 2 ^ c))
    by (rewrite Z.pow_add_r by lia; change (2 ^ 4) with 16; ring).
  unfold Z.div, Z.modulo.
  destruct (Z.div_eucl (16 * (k * 2 ^ c)) 12) as [q r]. reflexivity.
Qed.

(** [K / 12] rounded: three times the mantissa is within one of [4 K] (or
    of [2 K] when the quotient needs one more bit). *)
Lemma div12_round K e :
  2 ^ 52 <= K < 2 ^ 53 -> -1074 <= e <= 900 ->
  exists Mq eq d,
    binary_round_aux prec emax false (16 * K / 12) e
      (new_location 12 ((16 * K) mod 12))
    = S754_finite false (Z.to_pos Mq) eq
    /\ 2 ^ 52 <= Mq < 2 ^ 53 /\ -1 <= d <= 1
    /\ ((K < 3 * 2 ^ 51 /\ 3 * Mq = 4 * K + d /\ eq = e)
        \/ (3 * 2 ^ 51 <= K /\ 3 * Mq = 2 * K + d /\ eq = e + 1)).
Proof.
  change (2 ^ 52) with 4503599627370496. change (2 ^ 53) with 9007199254740992.
  change (2 ^ 51) with 2251799813685248.
  intros HK He.
  pose proof (Z.div_mod (16 * K) 12 ltac:(lia)) as Hdm.
  pose proof (Z.mod_pos_bound (16 * K) 12 ltac:(lia)) as Hr.
  set (Q := 16 * K / 12) in *. set (R := (16 * K) mod 12) in *.
  assert (HR : R = 0 \/ R = 4 \/ R = 8) by lia.
  destruct (Z_lt_le_dec K (3 * 2251799813685248)) as [HA|HB].
  - assert (HdQ : Zdigits2 Q = 53)
      by (apply Zdigits2_bounds; [lia|];
          change (2 ^ (53 - 1)) with 4503599627370496;
          change (2 ^ 53) with 9007199254740992; lia).
    destruct HR as [HR|[HR|HR]]; rewrite HR in *.
    + exists Q, e, 0. split; [|lia].
      apply binary_round_aux_final with (mrs := shr_record_of_loc Q loc_Exact);
        [apply shr_fexp_noshift; [assumption|lia]|reflexivity| |lia].
      change (2 ^ 52) with 4503599627370496. change (2 ^ 53) with 9007199254740992. lia.
    + exists Q, e, (-1). split; [|lia].
      apply binary_round_aux_final
        with (mrs := shr_record_of_loc Q (loc_Inexact Lt));
        [apply shr_fexp_noshift; [assumption|lia]|reflexivity| |lia].
      change (2 ^ 52) with 4503599627370496. change (2 ^ 53) with 9007199254740992. lia.
    + exists (Q + 1), e, 1. split; [|lia].
      apply binary_round_aux_final
        with (mrs := shr_record_of_loc Q (loc_Inexact Gt));
        [apply shr_fexp_noshift; [assumption|lia]|reflexivity| |lia].
      change (2 ^ 52) with 4503599627370496. change (2 ^ 53) with 9007199254740992. lia.
  - assert (HdQ : Zdigits2 Q = 54)
      by (apply Zdigits2_bounds; [lia|];
          change (2 ^ (54 - 1)) with 9007199254740992;
          change (2 ^ 54) with 18014398509481984; lia).
    assert (Hpar : exists a, 0 <= a /\ (Q = 2 * a \/ Q = 2 * a + 1)).
    { exists (Q / 2). pose proof (Z.div_mod Q 2 ltac:(lia)).
      pose proof (Z.mod_pos_bound Q 2 ltac:(lia)). lia. }
    destruct Hpar as (a & Ha & Hpar).
    destruct HR as [HR|[HR|HR]]; rewrite HR in *.
    + assert (HQ : Q = 2 * a) by lia.
      exists a, (e + 1), 0. split; [|lia].
      apply binary_round_aux_final with (mrs := Build_shr_record a false false);
        [|reflexivity| |lia].
      * rewrite (shr_fexp_shift _ _ _ 54 1) by (assumption || lia).
        change (Z.to_nat 1) with 1%nat. cbn [Nat.iter]. f_equal.
        change (new_location 12 0) with loc_Exact. cbn [shr_record_of_loc].
        rewrite HQ. apply shr_1_even, Ha.
      * change (2 ^ 52) with 4503599627370496.
        change (2 ^ 53) with 9007199254740992. lia.
    + assert (HQ : Q = 2 * a + 1) by lia.
      exists (a + 1), (e + 1), 1. split; [|lia].
      apply binary_round_aux_final with (mrs := Build_shr_record a true true);
        [|reflexivity| |lia].
      * rewrite (shr_fexp_shift _ _ _ 54 1) by (assumption || lia).
        change (Z.to_nat 1) with 1%nat. cbn [Nat.iter]. f_equal.
        change (new_location 12 4) with (loc_Inexact Lt). cbn [shr_record_of_loc].
        rewrite HQ. apply shr_1_odd, Ha.
      * change (2 ^ 52) with 4503599627370496.
        change (2 ^ 53) with 9007199254740992. lia.
    + assert (HQ : Q = 2 * a) by lia.
      exists a, (e + 1), (-1). split; [|lia].
      apply binary_round_aux_final with (mrs := Build_shr_record a false true);
        [|reflexivity| |lia].
      * rewrite (shr_fexp_shift _ _ _ 54 1) by (assumption || lia).
        change (Z.to_nat 1) with 1%nat. cbn [Nat.iter]. f_equal.
        change (new_location 12 8) with (loc_Inexact Gt). cbn [shr_record_of_loc].
        rewrite HQ. apply shr_1_even, Ha.
      * change (2 ^ 52) with 4503599627370496.
        change (2 ^ 53) with 9007199254740992. lia.
Qed.

(** Rounding that carries into the next binade. *)
Lemma binary_round_aux_carry sx mx ex lx mrs e' :
  shr_fexp prec emax mx ex lx = (mrs, e') ->
  round_nearest_even (shr_m mrs) (loc_of_shr_record mrs) = 9007199254740992 ->
  -1074 <= e' <= 970 ->
  binary_round_aux prec emax sx mx ex lx
  = S754_finite sx 4503599627370496 (e' + 1).
Proof.
  intros Hs Hm He. unfold binary_round_aux. rewrite Hs, Hm.
  rewrite (shr_fexp_shift _ _ _ 54 1) by (reflexivity || lia).
  cbn [shr_record_of_loc]. change (Z.to_nat 1) with 1%nat. cbn [Nat.iter].
  change (shr_1 {| shr_m := 9007199254740992; shr_r := false; shr_s := false |})
    with {| shr_m := 4503599627370496; shr_r := false; shr_s := false |}.
  cbn [shr_m].
  replace (e' + 1 <=? emax - prec) with true; [reflexivity|].
  symmetry. apply Z.leb_le. unfold emax, prec. lia.
Qed.

(** Two low bits shifted out of [4 K + d]: the nearest integer is [K]. *)
Lemma round_shift2 K d :
  0 < K -> -1 <= d <= 1 ->
  let mrs := Nat.iter 2 shr_1 (Build_shr_record (4 * K + d) false false) in
  round_nearest_even (shr_m mrs) (loc_of_shr_record mrs) = K.
Proof.
  intros HK Hd mrs. subst mrs. cbn [Nat.iter nat_rect].
  assert (Hc : d = 0 \/ d = 1 \/ d = -1) by lia.
  destruct Hc as [->|[->| ->]].
  - replace (4 * K + 0) with (2 * (2 * K)) by lia.
    rewrite !shr_1_even by lia. reflexivity.
  - replace (4 * K + 1) with (2 * (2 * K) + 1) by lia.
    rewrite shr_1_odd, shr_1_even by lia. reflexivity.
  - replace (4 * K + -1) with (2 * (2 * (K - 1) + 1) + 1) by lia.
    rewrite !shr_1_odd by lia. cbn. lia.
Qed.

(** One low bit shifted out of [2 K + d] with [K] even: ties go to [K]. *)
Lemma round_shift1 K d :
  0 < K -> Z.even K = true -> -1 <= d <= 1 ->
  let mrs := shr_1 (Build_shr_record (2 * K + d) false false) in
  round_nearest_even (shr_m mrs) (loc_of_shr_record mrs) = K.
Proof.
  intros HK Hev Hd mrs. subst mrs.
  assert (Hc : d = 0 \/ d = 1 \/ d = -1) by lia.
  destruct Hc as [->|[->| ->]].
  - replace (2 * K + 0) with (2 * K) by lia.
    rewrite shr_1_even by lia. reflexivity.
  - rewrite shr_1_odd by lia. cbn [shr_m loc_of_shr_record orb round_nearest_even].
    change IntDef.Z.even with Z.even. rewrite Hev. reflexivity.
  - replace (2 * K + -1) with (2 * (K - 1) + 1) by lia.
    rewrite shr_1_odd by lia. cbn [shr_m loc_of_shr_record orb round_nearest_even].
    change IntDef.Z.even with Z.even.
    rewrite Z.even_sub, Hev. cbn. lia.
Qed.

(** Twelve times the rounded quotient rounds back to [K]. *)
Lemma mul12_round K Mq eq d c :
  2 ^ 52 <= K < 2 ^ 53 -> 2 ^ 52 <= Mq < 2 ^ 53 -> -1 <= d <= 1 ->
  0 <= c <= 52 ->
  (K < 3 * 2 ^ 51 /\ 3 * Mq = 4 * K + d /\ eq = - c - 4)
  \/ (3 * 2 ^ 51 <= K /\ Z.even K = true /\ 3 * Mq = 2 * K + d /\ eq = - c - 3) ->
  binary_round_aux prec emax false (Z.pos (6755399441055744 * Z.to_pos Mq))
    (-49 + eq) loc_Exact
  = S754_finite false (Z.to_pos K) (- c).
Proof.
  change (2 ^ 52) with 4503599627370496. change (2 ^ 53) with 9007199254740992.
  change (2 ^ 51) with 2251799813685248.
  intros HK HM Hd Hc Hcase.
  rewrite Pos2Z.inj_mul, Z2Pos.id by lia.
  destruct Hcase as [(HA & H3 & ->)|(HB & Hev & H3 & ->)].
  - replace (6755399441055744 * Mq) with ((4 * K + d) * 2 ^ Z.of_nat 51)
      by (change (2 ^ Z.of_nat 51) with 2251799813685248; lia).
    destruct (Z_lt_le_dec (4 * K + d) 18014398509481984) as [Hlow|Hhigh].
    + assert (K = 4503599627370496) by lia. assert (d = -1) by lia. subst K d.
      replace (- c) with (- c - 1 + 1) by lia.
      apply binary_round_aux_carry
        with (mrs := Build_shr_record 9007199254740991 true false);
        [|reflexivity|lia].
      rewrite (shr_fexp_shift _ _ _ 105 52); [|reflexivity|lia|lia|lia].
      f_equal; first [lia|vm_compute; reflexivity].
    + apply binary_round_aux_final
        with (mrs := Nat.iter 2 shr_1 (Build_shr_record (4 * K + d) false false));
        [|apply round_shift2; lia
         |change (2 ^ 52) with 4503599627370496;
          change (2 ^ 53) with 9007199254740992; lia|lia].
      rewrite (shr_fexp_shift _ _ _ 106 53); [|apply Zdigits2_bounds|lia|lia|lia].
      * f_equal; [|lia]. change (Z.to_nat 53) with (2 + 51)%nat.
        rewrite Nat.iter_add. cbn [shr_record_of_loc].
        rewrite iter_shr_1_zeros by lia. reflexivity.
      * lia.
      * change (2 ^ Z.of_nat 51) with 2251799813685248.
        change (2 ^ (106 - 1)) with 40564819207303340847894502572032.
        change (2 ^ 106) with 81129638414606681695789005144064. lia.
  - replace (6755399441055744 * Mq) with ((2 * K + d) * 2 ^ Z.of_nat 51)
      by (change (2 ^ Z.of_nat 51) with 2251799813685248; lia).
    apply binary_round_aux_final
      with (mrs := shr_1 (Build_shr_record (2 * K + d) false false));
      [|apply round_shift1; (assumption || lia)
       |change (2 ^ 52) with 4503599627370496;
        change (2 ^ 53) with 9007199254740992; lia|lia].
    rewrite (shr_fexp_shift _ _ _ 105 52); [|apply Zdigits2_bounds|lia|lia|lia].
    * f_equal; [|lia]. change (Z.to_nat 52) with (1 + 51)%nat.
      rewrite Nat.iter_add. cbn [shr_record_of_loc].
      rewrite iter_shr_1_zeros by lia. reflexivity.
    * lia.
    * change (2 ^ Z.of_nat 51) with 2251799813685248.
      change (2 ^ (105 - 1)) with 20282409603651670423947251286016.
      change (2 ^ 105) with 40564819207303340847894502572032. lia.
Qed.

Lemma valid_normal s m e :
  2 ^ 52 <= m < 2 ^ 53 -> -1074 <= e <= 971 ->
  valid_binary (S754_finite s (Z.to_pos m) e) = true.
Proof.
  intros Hm He. destruct m as [|p|p]; try lia.
  cbn [Z.to_pos]. unfold SpecFloat.valid_binary, bounded, canonical_mantissa.
  rewrite (digits2_pos_bounds p 53) by lia. rewrite fexp_normal by lia.
  apply andb_true_intro. split; [apply Z.eqb_eq|apply Z.leb_le; unfold emax, prec]; lia.
Qed.

Lemma finite_not_infinity s m e :
  valid_binary (S754_finite s m e) = true ->
  is_infinity (SF2Prim (S754_finite s m e)) = false.
Proof.
  intros Hv. unfold is_infinity.
  rewrite FloatAxioms.eqb_spec, abs_spec, Prim2SF_SF2Prim by assumption.
  destruct s; reflexivity.
Qed.

Lemma finite_not_zero s m e :
  valid_binary (S754_finite s m e) = true ->
  (SF2Prim (S754_finite s m e) =? 0)%float = false.
Proof.
  intros Hv. rewrite FloatAxioms.eqb_spec, Prim2SF_SF2Prim by assumption.
  destruct s; reflexivity.
Qed.

Lemma Zdigits2_le_53 k : 1 <= k < 2 ^ 53 -> 0 <= 53 - Zdigits2 k <= 52.
Proof.
  intros Hk. rewrite Zdigits2_log2 by lia.
  pose proof (Z.log2_nonneg k).
  assert (Z.log2 k < 53) by (apply Z.log2_lt_pow2; lia). lia.
Qed.

(** Integers below [2 ^ 53] convert to float exactly and without overflow. *)
Lemma float_of_int_exact k :
  1 <= k < 2 ^ 53 ->
  float_of_int k = Ok (float_of_Z k) /\ (float_of_Z k =? 0)%float = false.
Proof.
  intros Hk. pose proof (Zdigits2_le_53 k Hk) as Hc.
  set (c := 53 - Zdigits2 k) in *.
  assert (Hd : Zdigits2 k = 53 - c) by (unfold c; lia).
  pose proof (normalize_bounds k c ltac:(lia) Hd ltac:(lia)) as HK.
  assert (Hv : valid_binary (S754_finite false (Z.to_pos (k * 2 ^ c)) (- c)) = true)
    by (apply valid_normal; lia).
  unfold float_of_int.
  rewrite (float_of_Z_normal k c) by lia.
  rewrite finite_not_infinity, finite_not_zero by assumption. split; reflexivity.
Qed.

(** [12 * (k / 12)] is [k] for every whole [k] from 1 to [3 * 2 ^ 51]: the
    quotient is within half a unit in the last place of [k / 12], and twelve
    times it rounds back to [k]; ties arise only when the quotient needs one
    more bit, from [3 * 2 ^ 51] on, and there they go to the even
    neighbour. *)
Lemma periods_exact k :
  1 <= k <= 3 * 2 ^ 51 -> periods k = Ok (float_of_Z k).
Proof.
  change (2 ^ 51) with 2251799813685248.
  intros Hk.
  pose proof (Zdigits2_le_53 k ltac:(change (2 ^ 53) with 9007199254740992; lia)) as Hc.
  set (c := 53 - Zdigits2 k) in *.
  assert (Hd : Zdigits2 k = 53 - c) by (unfold c; lia).
  clearbody c.
  pose proof (normalize_bounds k c ltac:(lia) Hd ltac:(lia)) as HK.
  assert (Hev : 3 * 2251799813685248 <= k * 2 ^ c -> Z.even (k * 2 ^ c) = true).
  { intros HB. destruct (Z.eq_dec c 0) as [->|Hc0].
    - rewrite Z.pow_0_r, Z.mul_1_r in *.
      assert (k = 6755399441055744) as -> by lia. reflexivity.
    - rewrite Z.even_mul, Z.even_pow by lia. apply orb_true_r. }
  destruct (div12_round (k * 2 ^ c) (- c - 4) HK ltac:(lia))
    as (Mq & eq & d & Hq & HM & Hdl & Hcase).
  change (2 ^ 51) with 2251799813685248 in Hcase.
  assert (Hvq : valid_binary (S754_finite false (Z.to_pos Mq) eq) = true)
    by (apply valid_normal; lia).
  unfold periods, int_truediv.
  replace (12 =? 0) with false by reflexivity.
  replace (k =? 0) with false by (symmetry; apply Z.eqb_neq; lia).
  replace (k <? 0) with false by (symmetry; apply Z.ltb_ge; lia).
  cbn [xorb Z.ltb Z.compare]. rewrite (Z.abs_eq k) by lia. change (Z.abs 12) with 12.
  unfold SF_of_ratio. rewrite (SFdiv_core_12 k c) by lia. rewrite Hq.
  rewrite finite_not_infinity by assumption. cbn [bind]. f_equal.
  rewrite <- (SF2Prim_Prim2SF (12 * _)), mul_spec, Prim2SF_SF2Prim by assumption.
  rewrite (float_of_Z_normal k c) by lia. f_equal.
  change (Prim2SF 12) with (S754_finite false 6755399441055744 (-49)).
  unfold SF64mul, SFmul. cbn [xorb].
  apply (mul12_round _ Mq eq d c); try lia.
  change (2 ^ 51) with 2251799813685248.
  destruct Hcase as [(H1 & H2 & H3)|(H1 & H2 & H3)]; [left|right]; repeat split;
    try (assumption || lia).
  apply Hev, H1.
Qed.

Lemma term_exact_spec k :
  1 <= k <= max_exact_term ->
  periods k = Ok (float_of_Z k) /\ float_of_int k = Ok (float_of_Z k)
  /\ (float_of_Z k =? 0)%float = false.
Proof.
  unfold max_exact_term. intros Hk. split.
  - apply periods_exact. change (2 ^ 51) with 2251799813685248. lia.
  - apply float_of_int_exact. change (2 ^ 53) with 9007199254740992. lia.
Qed.

(** The bound is the best one: the next term is the first on which
    [n * t] is not [term_months]. *)
Example periods_first_inexact :
  periods (max_exact_term + 1) = Ok 6755399441055746%float
  /\ float_of_Z (max_exact_term + 1) = 6755399441055745%float.
Proof. split; vm_compute; reflexivity. Qed.

(** ** The amortization loop *)

Section Schedule.

Variables monthly_rate monthly_payment : float.
Variable term_months : Z.

Abbreviation rows_from := (amortization_rows monthly_rate monthly_payment term_months).



Lemma amortization_row_balance i balance :
  (0 <=? at_Balance (amortization_row monthly_rate monthly_payment term_months i balance))%float
  = true.
Proof.
  unfold amortization_row. destruct (_ && _); simpl;
    [reflexivity|apply py_max_zero_nonneg].
Qed.





End Schedule.

Lemma frame_columns_agree_iff n : frame_columns_agree n = true <-> 1 <= n.
Proof. unfold frame_columns_agree. rewrite Z.eqb_eq. lia. Qed.

Section ScheduleShape.

Variable libm_pow : float -> float -> float.

Lemma schedule_inv principal rate n rows :
  generate_amortization_schedule libm_pow principal rate n = Ok rows ->
  1 <= n
  /\ exists monthly_payment,
       monthly_payment_of libm_pow principal (rate / 100 / 12)%float n
       = Ok monthly_payment
       /\ rows = round_frame
                   (amortization_rows (rate / 100 / 12)%float monthly_payment n
                      (Z.to_nat n) 0 principal).
Proof.
  unfold generate_amortization_schedule.
  destruct (monthly_payment_of _ _ _ _) as [mp|e]; [simpl|discriminate].
  destruct (frame_columns_agree n) eqn:Hf; simpl; [|discriminate].
  intros [= <-]. apply frame_columns_agree_iff in Hf. eauto.
Qed.



End ScheduleShape.

(** ** The orchestrator, case by case *)

Lemma valid_pay_frequency_convert salary frequency :
  if valid_pay_frequency frequency
  then exists ms, convert_to_monthly_salary salary frequency = Ok ms
  else convert_to_monthly_salary salary frequency
       = Raise (ValueError "Invalid pay_frequency").
Proof.
  unfold valid_pay_frequency, convert_to_monthly_salary. simpl.
  destruct (String.eqb frequency "Weekly"); simpl; [eauto|].
  destruct (String.eqb frequency "Bi-Weekly"); simpl; [eauto|].
  destruct (String.eqb frequency "Monthly"); simpl; [eauto|].
  destruct (String.eqb frequency "Annually"); simpl; eauto.
Qed.

Lemma error_response_shape (loans_db : ledger) (e : exn)
    (x : response advance_body * ledger) :
  x = match e with
      | ValueError msg => (HTTPException 400 msg, loans_db)
      | _ => (HTTPException 500 "Internal server error", loans_db)
      end ->
  exists status detail, x = (HTTPException status detail, loans_db).
Proof. intros ->. destruct e; eauto. Qed.

Section Structure.

Variable libm_pow : float -> float -> float.
Variable linesep : string.


Lemma loan_math_no_fields request export_csv approved :
  loan_fields_truthy request = false ->
  loan_math libm_pow linesep request export_csv approved = Ok (LoanValues None None).
Proof.
  unfold loan_math, loan_fields_truthy.
  destruct (loan_amount request), (interest_rate request), (loan_term request);
    try reflexivity.
  intros H. destruct approved; simpl; [rewrite H|]; reflexivity.
Qed.

Lemma loan_math_csv_inv request export_csv approved csv_data :
  loan_math libm_pow linesep request export_csv approved = Ok (LoanCsv csv_data) ->
  approved = true /\ export_csv = true /\ loan_fields_truthy request = true
  /\ exists la ir lt rows,
       loan_amount request = Some la /\ interest_rate request = Some ir
       /\ loan_term request = Some lt
       /\ generate_amortization_schedule libm_pow la ir lt = Ok rows
       /\ csv_data = to_csv linesep rows.
Proof.
  unfold loan_math, loan_fields_truthy.
  destruct (loan_amount request) as [la|], (interest_rate request) as [ir|],
    (loan_term request) as [lt|]; try discriminate.
  destruct approved; simpl; [|discriminate].
  destruct (float_bool la && float_bool ir && negb (lt =? 0)); [|discriminate].
  destruct (calculate_compound_interest libm_pow la ir lt) as [total|e];
    [simpl|discriminate].
  destruct (option_bool (include_amortization request) || export_csv);
    [|discriminate].
  destruct (generate_amortization_schedule libm_pow la ir lt) as [rows|e] eqn:Hg;
    [simpl|discriminate].
  destruct export_csv; [|discriminate].
  intros [= <-]. repeat split. exists la, ir, lt, rows. auto.
Qed.


Lemma calculate_advance_ineligible uuid4 now (loans_db : ledger) request export_csv ms :
  convert_to_monthly_salary (gross_salary request) (pay_frequency request) = Ok ms ->
  (1000 <=? ms)%float = false ->
  calculate_advance libm_pow linesep uuid4 now loans_db request export_csv
  = (Json (Decision ineligible_decision), loans_db).
Proof.
  intros Hms He. unfold calculate_advance, calculate_advance_try.
  rewrite Hms. simpl. rewrite He. reflexivity.
Qed.

Lemma calculate_advance_eligible uuid4 now (loans_db : ledger) request export_csv ms :
  convert_to_monthly_salary (gross_salary request) (pay_frequency request) = Ok ms ->
  (1000 <=? ms)%float = true ->
  let approved := (advance_amount request <=? ms * 0.5)%float in
  calculate_advance libm_pow linesep uuid4 now loans_db request export_csv
  = match loan_math libm_pow linesep request export_csv approved with
    | Ok (LoanCsv csv_data) =>
        (Json (CsvExport csv_data "amortization_schedule.csv"), loans_db)
    | Ok (LoanValues total schedule) =>
        (Json (Decision (decision_of uuid4 request ms total schedule)),
         if approved
         then <[uuid4 := loan_record request uuid4 now
                           (advance_fee (advance_amount request) approved)
                           total schedule]> loans_db
         else loans_db)
    | Raise (ValueError msg) => (HTTPException 400 msg, loans_db)
    | Raise _ => (HTTPException 500 "Internal server error", loans_db)
    end.
Proof.
  intros Hms He approved. unfold calculate_advance, calculate_advance_try.
  rewrite Hms. simpl. rewrite He. simpl. fold approved.
  destruct (loan_math libm_pow linesep request export_csv approved) as [[c|t s]|[m| |]];
    simpl; reflexivity.
Qed.

Lemma decision_inv uuid4 now (loans_db : ledger) request export_csv d db' :
  calculate_advance libm_pow linesep uuid4 now loans_db request export_csv
  = (Json (Decision d), db') ->
  exists ms,
    convert_to_monthly_salary (gross_salary request) (pay_frequency request) = Ok ms
    /\ (((1000 <=? ms)%float = false /\ d = ineligible_decision /\ db' = loans_db)
        \/ ((1000 <=? ms)%float = true
            /\ exists total schedule,
                 loan_math libm_pow linesep request export_csv
                   (advance_amount request <=? ms * 0.5)%float
                 = Ok (LoanValues total schedule)
                 /\ d = decision_of uuid4 request ms total schedule
                 /\ db' = if (advance_amount request <=? ms * 0.5)%float
                          then <[uuid4 := loan_record request uuid4 now
                                   (advance_fee (advance_amount request)
                                      (advance_amount request <=? ms * 0.5)%float)
                                   total schedule]> loans_db
                          else loans_db)).
Proof.
  intros H.
  destruct (convert_to_monthly_salary (gross_salary request) (pay_frequency request))
    as [ms|e] eqn:Hms.
  - exists ms. split; [reflexivity|].
    destruct (1000 <=? ms)%float eqn:He.
    + right. split; [reflexivity|].
      rewrite (calculate_advance_eligible _ _ _ _ _ _ Hms He) in H.
      destruct (loan_math _ _ _ _ _) as [[c|t s]|[m| |]]; try discriminate.
      injection H as <- <-. exists t, s. auto.
    + left. rewrite (calculate_advance_ineligible _ _ _ _ _ _ Hms He) in H.
      injection H as <- <-. auto.
  - unfold calculate_advance, calculate_advance_try in H. rewrite Hms in H.
    destruct e; discriminate.
Qed.


Lemma calculate_advance_no_loan uuid4 now (loans_db : ledger) salary frequency
    amount ms :
  convert_to_monthly_salary salary frequency = Ok ms ->
  (1000 <=? ms)%float = true ->
  (amount <=? ms * 0.5)%float = true ->
  calculate_advance libm_pow linesep uuid4 now loans_db
    (advance_only salary frequency amount) false
  = (Json (Decision (decision_of uuid4 (advance_only salary frequency amount)
                       ms None None)),
     <[uuid4 := loan_record (advance_only salary frequency amount) uuid4 now
                  (advance_fee amount true) None None]> loans_db).
Proof.
  intros Hms He Ha.
  rewrite (calculate_advance_eligible uuid4 now loans_db
             (advance_only salary frequency amount) false ms Hms He).
  simpl. rewrite Ha. reflexivity.
Qed.

End Structure.

(** ** The claims *)

Section Claims.

Variable libm_pow : float -> float -> float.
Variable linesep : string.




(** C4 (amended).  For every principal, rate and term, total_repayable is
    principal * (1 + (rate/100)/12) ** periods rounded to two decimals by
    NumPy, where periods is [12 * (term_months / 12)] computed in binary64;
    for every term from 1 to [max_exact_term] (3 * 2^51) months periods
    is term_months exactly, and total_repayable is
    principal * (1 + (rate/100)/12) ** term_months rounded to two
    decimals. *)
Theorem C4_total_repayable_formula (principal rate : float) (term_months : Z) :
  calculate_compound_interest libm_pow principal rate term_months
  = (let* periods := periods term_months in
     Ok (np_round2
           (principal * np_power libm_pow (1 + rate / 100 / 12) periods)%float))
  /\ (1 <= term_months <= max_exact_term ->
      periods term_months = Ok (float_of_Z term_months)
      /\ calculate_compound_interest libm_pow principal rate term_months
         = Ok (np_round2
                 (principal
                  * np_power libm_pow (1 + rate / 100 / 12)
                      (float_of_Z term_months))%float)).
Proof.
  split; [reflexivity|].
  intros Hk. unfold calculate_compound_interest.
  destruct (term_exact_spec term_months Hk) as (-> & _). split; reflexivity.
Qed.


(** C6.  For a request with advance_amount >= 0, a decision satisfies
    0 <= approved_amount <= max_advance; for an eligible request max_advance
    is half the monthly salary, advance_approved is
    advance_amount <= max_advance, and approved_amount is advance_amount
    when approved and 0 otherwise. *)
Theorem C6_approved_amount_bounds uuid4 now (loans_db : ledger) request export_csv
    ms d db' :
  convert_to_monthly_salary (gross_salary request) (pay_frequency request) = Ok ms ->
  (0 <=? advance_amount request)%float = true ->
  calculate_advance libm_pow linesep uuid4 now loans_db request export_csv
  = (Json (Decision d), db') ->
  (0 <=? approved_amount d)%float = true
  /\ (approved_amount d <=? max_advance d)%float = true
  /\ ((1000 <=? ms)%float = true ->
      max_advance d = (ms * 0.5)%float
      /\ advance_approved d = (advance_amount request <=? max_advance d)%float
      /\ approved_amount d
         = if advance_approved d then advance_amount request else 0%float).
Proof.
  intros Hms Hadv H.
  apply decision_inv in H as (ms' & Hms' & [(He & -> & _)|(He & t & s & _ & -> & _)]).
  - split; [reflexivity|]. split; [reflexivity|].
    intros He'. congruence.
  - assert (ms' = ms) as -> by congruence. simpl.
    destruct (advance_amount request <=? ms * 0.5)%float eqn:Ha.
    + repeat split; auto.
    + repeat split; auto. apply half_salary_nonneg, He.
Qed.

(** C7.  In every decision the fee is max(10.0, min(50.0, advance_amount *
    0.05)) when the advance is approved and 0.0 when it is not; on a monthly
    salary of 4000 an advance of 100 costs 10.0, one of 2000 costs 50.0 and
    one of 500 costs 25.0. *)
Theorem C7_fee_formula uuid4 now (loans_db : ledger) request export_csv d db' :
  calculate_advance libm_pow linesep uuid4 now loans_db request export_csv
  = (Json (Decision d), db') ->
  fee d = (if advance_approved d
           then py_max 10%float (py_min 50%float (advance_amount request * 0.05)%float)
           else 0%float)
  /\ (forall amount expected,
        In (amount, expected) [(100, 10); (2000, 50); (500, 25)]%float ->
        exists d' db'',
          calculate_advance libm_pow linesep uuid4 now loans_db
            (advance_only 4000 "Monthly" amount) false
          = (Json (Decision d'), db'')
          /\ advance_approved d' = true /\ fee d' = expected).
Proof.
  intros H. split.
  - apply decision_inv in H as (ms' & Hms' & [(He & -> & _)|(He & t & s & _ & -> & _)]).
    + reflexivity.
    + simpl. unfold advance_fee.
      destruct (advance_amount request <=? ms' * 0.5)%float; reflexivity.
  - intros amount expected Hin. simpl in Hin.
    destruct Hin as [[= <- <-]|[[= <- <-]|[[= <- <-]|[]]]];
      (eexists _, _; split;
       [apply calculate_advance_no_loan; reflexivity
       |split; vm_compute; reflexivity]).
Qed.

(** C8.  When a decision carries a loan_id, looking that id up in the ledger
    gives the stored LoanRecord with the fields of the request, the fee and
    the loan values of the decision; and looking up an id that the ledger
    does not have is answered with 404. *)
Theorem C8_ledger_round_trip uuid4 now (loans_db : ledger) request export_csv
    d db' id :
  calculate_advance libm_pow linesep uuid4 now loans_db request export_csv
  = (Json (Decision d), db') ->
  loan_id d = Some id ->
  (exists r,
     get_loan db' id = Json r
     /\ rec_loan_id r = id
     /\ rec_advance_amount r = advance_amount request
     /\ rec_fee r = fee d
     /\ rec_timestamp r = now
     /\ rec_gross_salary r = gross_salary request
     /\ rec_pay_frequency r = pay_frequency request
     /\ rec_loan_amount r = loan_amount request
     /\ rec_interest_rate r = interest_rate request
     /\ rec_loan_term r = loan_term request
     /\ rec_total_repayable r = total_repayable d
     /\ rec_amortization_schedule r = amortization_schedule d)
  /\ (forall (db0 : ledger) (id0 : string),
        db0 !! id0 = None -> get_loan db0 id0 = HTTPException 404 "Loan not found").
Proof.
  intros H Hid. split.
  - apply decision_inv in H as (ms' & Hms' & [(He & -> & _)|(He & t & s & _ & -> & ->)]).
    + discriminate.
    + simpl in Hid. destruct (advance_amount request <=? ms' * 0.5)%float eqn:Ha;
        [|discriminate].
      injection Hid as <-.
      eexists. unfold get_loan. rewrite lookup_insert_eq.
      split; [reflexivity|]. simpl. rewrite Ha. repeat split; reflexivity.
  - intros db0 id0 Hn. unfold get_loan. rewrite Hn. reflexivity.
Qed.


(** C10 (amended).  For an eligible request with advance_amount = 0, a
    decision approves the advance with approved_amount equal to the zero
    asked for, charges the fee 10.0, returns a loan_id and leaves the record
    in the ledger; this is the answer whenever the loan fields are not all
    truthy.  A CSV answer comes only from an export with truthy loan fields
    and leaves the ledger unchanged. *)
Theorem C10_zero_advance uuid4 now (loans_db : ledger) request export_csv ms :
  convert_to_monthly_salary (gross_salary request) (pay_frequency request) = Ok ms ->
  (1000 <=? ms)%float = true ->
  (advance_amount request =? 0)%float = true ->
  let out := calculate_advance libm_pow linesep uuid4 now loans_db request export_csv in
  (forall d db', out = (Json (Decision d), db') ->
     advance_approved d = true
     /\ approved_amount d = advance_amount request
     /\ fee d = 10%float
     /\ loan_id d = Some uuid4
     /\ get_loan db' uuid4
        = Json (loan_record request uuid4 now 10%float
                  (total_repayable d) (amortization_schedule d)))
  /\ (forall csv_data filename db', out = (Json (CsvExport csv_data filename), db') ->
        export_csv = true /\ loan_fields_truthy request = true /\ db' = loans_db)
  /\ (loan_fields_truthy request = false -> exists d db', out = (Json (Decision d), db')).
Proof.
  intros Hms He Hz out. subst out.
  pose proof (zero_leb _ _ Hz (half_salary_nonneg ms He)) as Ha.
  assert (Hfee : advance_fee (advance_amount request) true = 10%float).
  { destruct (eqb_zero_cases _ Hz) as [-> | ->]; vm_compute; reflexivity. }
  rewrite (calculate_advance_eligible libm_pow linesep uuid4 now loans_db
             request export_csv ms Hms He).
  rewrite Ha.
  destruct (loan_math _ _ _ _ _) as [[c|t s]|e] eqn:Hl.
  - apply loan_math_csv_inv in Hl as (_ & -> & -> & _).
    split_all; try discriminate.
    intros c' f db' [= _ _ <-]. auto.
  - split_all; try discriminate; [|eauto].
    rewrite Hfee. intros d db' [= <- <-]. unfold decision_of.
    cbn [advance_approved approved_amount fee loan_id total_repayable
           amortization_schedule].
    rewrite Ha, Hfee.
    repeat split. unfold get_loan. rewrite lookup_insert_eq. reflexivity.
  - destruct (error_response_shape loans_db e _ eq_refl) as (st & msg & ->).
    split_all; try discriminate.
    intros Hf. rewrite (loan_math_no_fields _ _ _ _ _ Hf) in Hl. discriminate.
Qed.

End Claims.

(** ** The claims on concrete requests *)







(** C4, as stated, fails: at a term of 2^53 - 1 months the exponent handed
    to the power is 2^53, so the equation does not hold for every power
    function. *)
Lemma C4_periods_not_term :
  periods 9007199254740991 = Ok 9007199254740992%float
  /\ float_of_Z 9007199254740991 = 9007199254740991%float
  /\ ~ (forall libm_pow : float -> float -> float,
          calculate_compound_interest libm_pow 1 0 9007199254740991
          = Ok (np_round2
                  (1 * np_power libm_pow (1 + 0 / 100 / 12)
                         (float_of_Z 9007199254740991))%float)).
Proof.
  split; [vm_compute; reflexivity|]. split; [vm_compute; reflexivity|].
  intros H. specialize (H (fun _ y => y)). vm_compute in H. discriminate H.
Qed.

Lemma C4_witness :
  periods 12 = Ok 12%float
  /\ calculate_compound_interest pow_exact 1000 12 12 = Ok 1126.83%float.
Proof.
  destruct (C4_total_repayable_formula pow_exact 1000 12 12) as [_ H].
  destruct H as [H1 H2]; [vm_compute; intuition discriminate|].
  split; [exact H1|]. rewrite H2. vm_compute. reflexivity.
Defined.


Lemma C6_witness :
  (0 <=? 1000)%float = true
  /\ (approved_amount (decision_of "id" (advance_only 4000 "Monthly" 1000) 4000 None None)
      <=? max_advance (decision_of "id" (advance_only 4000 "Monthly" 1000) 4000 None None))%float
     = true.
Proof.
  destruct (C6_approved_amount_bounds pow_exact LF "id" "now" ∅
              (advance_only 4000 "Monthly" 1000) false 4000%float
              (decision_of "id" (advance_only 4000 "Monthly" 1000) 4000 None None)
              (<["id" := sample_record]> ∅)) as (H1 & H2 & _).
  - reflexivity.
  - reflexivity.
  - vm_compute. reflexivity.
  - split; [reflexivity|exact H2].
Defined.

Lemma C7_witness :
  fee (decision_of "id" (advance_only 4000 "Monthly" 1000) 4000 None None) = 50%float.
Proof.
  destruct (C7_fee_formula pow_exact LF "id" "now" ∅
              (advance_only 4000 "Monthly" 1000) false
              (decision_of "id" (advance_only 4000 "Monthly" 1000) 4000 None None)
              (<["id" := sample_record]> ∅)) as [H _].
  - vm_compute. reflexivity.
  - rewrite H. vm_compute. reflexivity.
Defined.

Lemma C8_witness :
  exists r,
    get_loan (<["id" := sample_record]> ∅) "id" = Json r
    /\ rec_advance_amount r = 1000%float.
Proof.
  destruct (C8_ledger_round_trip pow_exact LF "id" "now" ∅
              (advance_only 4000 "Monthly" 1000) false
              (decision_of "id" (advance_only 4000 "Monthly" 1000) 4000 None None)
              (<["id" := sample_record]> ∅) "id") as [(r & H & _ & Ha & _) _].
  - vm_compute. reflexivity.
  - reflexivity.
  - exists r. split; [exact H|exact Ha].
Defined.



(** C10, as stated, fails: an eligible request with an advance of zero and
    CSV export is answered with the CSV text, and the ledger stays empty. *)
Lemma C10_zero_advance_export :
  convert_to_monthly_salary (gross_salary zero_advance_export_request)
    (pay_frequency zero_advance_export_request) = Ok 4000%float
  /\ (1000 <=? 4000)%float = true
  /\ advance_amount zero_advance_export_request = 0%float
  /\ calculate_advance pow_exact LF "id" "now" ∅ zero_advance_export_request true
     = (Json (CsvExport export_csv_text "amortization_schedule.csv"), ∅).
Proof. repeat split; vm_compute; reflexivity. Qed.

Lemma C10_witness :
  exists d db',
    calculate_advance pow_exact LF "id" "now" ∅ (advance_only 4000 "Monthly" 0) false
    = (Json (Decision d), db').
Proof.
  destruct (C10_zero_advance pow_exact LF "id" "now" ∅
              (advance_only 4000 "Monthly" 0) false 4000%float)
    as (_ & _ & H).
  - reflexivity.
  - reflexivity.
  - reflexivity.
  - apply H. reflexivity.
Defined.

(** * Further properties of the code *)

(** ** What a call leaves in the ledger, and what loan maths returns *)

Section Orchestration.

Variable libm_pow : float -> float -> float.
Variable linesep : string.

Lemma calculate_advance_ledger uuid4 now (loans_db : ledger) request export_csv :
  let db' := snd (calculate_advance libm_pow linesep uuid4 now loans_db request export_csv) in
  db' = loans_db \/ exists r, db' = <[uuid4 := r]> loans_db.
Proof.
  intros db'. subst db'.
  destruct (convert_to_monthly_salary (gross_salary request) (pay_frequency request))
    as [ms|e] eqn:Hms.
  - destruct (1000 <=? ms)%float eqn:He.
    + rewrite (calculate_advance_eligible libm_pow linesep _ _ _ _ _ _ Hms He).
      destruct (loan_math _ _ _ _ _) as [[c|t s]|[m| |]]; simpl; auto.
      destruct (advance_amount request <=? ms * 0.5)%float; eauto.
    + rewrite (calculate_advance_ineligible libm_pow linesep _ _ _ _ _ _ Hms He). auto.
  - unfold calculate_advance, calculate_advance_try. rewrite Hms.
    destruct e; simpl; auto.
Qed.


Lemma loan_math_values_inv request export_csv approved total schedule :
  loan_math libm_pow linesep request export_csv approved
  = Ok (LoanValues total schedule) ->
  (approved && loan_fields_truthy request = false /\ total = None /\ schedule = None)
  \/ (approved = true /\ loan_fields_truthy request = true /\ export_csv = false
      /\ exists la ir lt t,
           loan_amount request = Some la /\ interest_rate request = Some ir
           /\ loan_term request = Some lt
           /\ calculate_compound_interest libm_pow la ir lt = Ok t
           /\ total = Some t
           /\ if option_bool (include_amortization request)
              then exists rows,
                     generate_amortization_schedule libm_pow la ir lt = Ok rows
                     /\ schedule = Some rows
              else schedule = None).
Proof.
  unfold loan_math, loan_fields_truthy.
  destruct (loan_amount request) as [la|], (interest_rate request) as [ir|],
    (loan_term request) as [lt|];
    try (intros [= <- <-]; left; rewrite andb_false_r; auto).
  destruct approved; simpl; [|intros [= <- <-]; auto].
  destruct (float_bool la && float_bool ir && negb (lt =? 0));
    [|intros [= <- <-]; auto].
  destruct (calculate_compound_interest libm_pow la ir lt) as [t|e] eqn:Hc;
    [simpl|discriminate].
  destruct (option_bool (include_amortization request)); simpl.
  - destruct (generate_amortization_schedule libm_pow la ir lt) as [rows|e] eqn:Hg;
      [simpl|discriminate].
    destruct export_csv; [discriminate|].
    intros [= <- <-]. right. repeat split. exists la, ir, lt, t. eauto 10.
  - destruct export_csv; simpl.
    + destruct (generate_amortization_schedule libm_pow la ir lt); discriminate.
    + intros [= <- <-]. right. repeat split. exists la, ir, lt, t. auto 10.
Qed.

End Orchestration.

Lemma advance_fee_bounds (advance_amount : float) :
  (10 <=? advance_fee advance_amount true)%float = true
  /\ (advance_fee advance_amount true <=? 50)%float = true.
Proof.
  unfold advance_fee, py_max, py_min.
  destruct (advance_amount * 0.05 <? 50)%float eqn:H50.
  - destruct (10 <? advance_amount * 0.05)%float eqn:H10.
    + split; apply ltb_leb; assumption.
    + split; reflexivity.
  - split; reflexivity.
Qed.

(** ** Salaries that are not positive *)

Lemma ltb_zero_not_positive (x : float) :
  (0 <? x)%float = negb (SFnot_positive (Prim2SF x)).
Proof.
  rewrite ltb_spec. change (Prim2SF 0) with (S754_zero false).
  destruct (Prim2SF x) as [s|s| |s m e]; try destruct s; reflexivity.
Qed.

Lemma binary_round_aux_not_positive m e l :
  SFnot_positive (binary_round_aux prec emax true m e l) = true.
Proof.
  unfold binary_round_aux.
  destruct (shr_fexp prec emax m e l) as [mrs' e'].
  destruct (shr_fexp prec emax _ e' loc_Exact) as [mrs'' e''].
  destruct (shr_m mrs'') as [|p|p]; try reflexivity.
  destruct (e'' <=? emax - prec); reflexivity.
Qed.

Lemma SFmul_not_positive a m e :
  SFnot_positive a = true ->
  SFnot_positive (SFmul prec emax a (S754_finite false m e)) = true.
Proof.
  destruct a as [s|s| |s m' e']; simpl; try reflexivity; intros H.
  - destruct s; [reflexivity|discriminate].
  - destruct s; [|discriminate]. apply binary_round_aux_not_positive.
Qed.

Lemma SFdiv_not_positive a m e :
  SFnot_positive a = true ->
  SFnot_positive (SFdiv prec emax a (S754_finite false m e)) = true.
Proof.
  destruct a as [s|s| |s m' e']; simpl; try reflexivity; intros H.
  - destruct s; [reflexivity|discriminate].
  - destruct s; [|discriminate].
    destruct (SFdiv_core_binary prec emax (Z.pos m') e' (Z.pos m) e) as [[mz ez] lz].
    apply binary_round_aux_not_positive.
Qed.

Lemma leb_1000_not_positive (ms : float) :
  SFnot_positive (Prim2SF ms) = true -> (1000 <=? ms)%float = false.
Proof.
  rewrite leb_spec.
  change (Prim2SF 1000) with (S754_finite false 8796093022208000 (-43)).
  destruct (Prim2SF ms) as [s|s| |s m e]; try destruct s; cbv; congruence.
Qed.

Lemma convert_not_positive (gross_salary : float) (pay_frequency : string) ms :
  (0 <? gross_salary)%float = false ->
  convert_to_monthly_salary gross_salary pay_frequency = Ok ms ->
  (1000 <=? ms)%float = false.
Proof.
  rewrite ltb_zero_not_positive. intros H. apply negb_false_iff in H.
  unfold convert_to_monthly_salary.
  repeat match goal with
         | |- context [if ?c then _ else _] => destruct c
         end; intros [= <-]; apply leb_1000_not_positive;
    rewrite ?div_spec, ?mul_spec; try exact H.
  - change (Prim2SF 12) with (S754_finite false 6755399441055744 (-49)).
    change (Prim2SF 52) with (S754_finite false 7318349394477056 (-47)).
    apply SFdiv_not_positive, SFmul_not_positive, H.
  - change (Prim2SF 12) with (S754_finite false 6755399441055744 (-49)).
    change (Prim2SF 26) with (S754_finite false 7318349394477056 (-48)).
    apply SFdiv_not_positive, SFmul_not_positive, H.
  - change (Prim2SF 12) with (S754_finite false 6755399441055744 (-49)).
    apply SFdiv_not_positive, H.
Qed.

Section Further.

Variable libm_pow : float -> float -> float.
Variable linesep : string.

(** X1.  A call never touches the records of other loans: looking up any
    id other than the one it was given for its own record answers as before
    the call, and an id that was in the ledger is still there after it. *)
Theorem X1_other_loans_untouched uuid4 now (loans_db : ledger) request export_csv id :
  let db' := snd (calculate_advance libm_pow linesep uuid4 now loans_db
                    request export_csv) in
  (id <> uuid4 -> get_loan db' id = get_loan loans_db id)
  /\ (is_Some (loans_db !! id) -> is_Some (db' !! id)).
Proof.
  intros db'.
  destruct (calculate_advance_ledger libm_pow linesep uuid4 now loans_db
              request export_csv) as [H|[r H]]; fold db' in H; rewrite H.
  - auto.
  - split.
    + intros Hne. unfold get_loan. rewrite lookup_insert_ne by congruence. reflexivity.
    + intros Hs. destruct (decide (id = uuid4)) as [->|Hne].
      * rewrite lookup_insert_eq. eauto.
      * rewrite lookup_insert_ne by congruence. exact Hs.
Qed.

(** X2.  Two advances in a row: when the first call answers with a decision
    that carries a loan_id, and the second call is given another id, the
    record of the first loan is still returned after the second call,
    whatever the second request is and however it is answered. *)
Theorem X2_two_advances uuid1 now1 uuid2 now2 (loans_db : ledger)
    request1 export1 request2 export2 d1 db1 :
  uuid1 <> uuid2 ->
  calculate_advance libm_pow linesep uuid1 now1 loans_db request1 export1
  = (Json (Decision d1), db1) ->
  loan_id d1 = Some uuid1 ->
  get_loan (snd (calculate_advance libm_pow linesep uuid2 now2 db1 request2 export2))
    uuid1
  = Json (loan_record request1 uuid1 now1 (fee d1) (total_repayable d1)
            (amortization_schedule d1)).
Proof.
  intros Hne H1 Hid.
  destruct (calculate_advance_ledger libm_pow linesep uuid2 now2 db1 request2 export2)
    as [H|[r H]]; rewrite H; clear H.
  all: unfold get_loan; try rewrite lookup_insert_ne by congruence.
  all: apply decision_inv in H1
         as (ms & Hms & [(He & -> & _)|(He & t & s & _ & -> & ->)]);
         [discriminate|].
  all: simpl in Hid;
       destruct (advance_amount request1 <=? ms * 0.5)%float eqn:Ha; [|discriminate].
  all: rewrite lookup_insert_eq; simpl; rewrite Ha; reflexivity.
Qed.


(** X4.  The loan values of a decision.  A decision carries a
    total_repayable exactly when the advance is approved and the three loan
    fields are truthy; it is then the result of
    [calculate_compound_interest] on these fields, the call was not an
    export, and the decision carries the result of
    [generate_amortization_schedule] when include_amortization is set and no
    schedule otherwise.  A decision without total_repayable has no
    schedule. *)
Theorem X4_loan_values uuid4 now (loans_db : ledger) request export_csv d db' :
  calculate_advance libm_pow linesep uuid4 now loans_db request export_csv
  = (Json (Decision d), db') ->
  if advance_approved d && loan_fields_truthy request
  then export_csv = false
       /\ exists la ir lt t,
            loan_amount request = Some la /\ interest_rate request = Some ir
            /\ loan_term request = Some lt
            /\ calculate_compound_interest libm_pow la ir lt = Ok t
            /\ total_repayable d = Some t
            /\ if option_bool (include_amortization request)
               then exists rows,
                      generate_amortization_schedule libm_pow la ir lt = Ok rows
                      /\ amortization_schedule d = Some rows
               else amortization_schedule d = None
  else total_repayable d = None /\ amortization_schedule d = None.
Proof.
  intros H.
  apply decision_inv in H as (ms & Hms & [(He & -> & _)|(He & t & s & Hl & -> & _)]).
  - simpl. auto.
  - cbn [decision_of advance_approved total_repayable amortization_schedule].
    apply loan_math_values_inv in Hl as [(Hf & -> & ->)|(Ha & Hf & Hx & Hrest)].
    + rewrite Hf. auto.
    + rewrite Ha, Hf. simpl. auto.
Qed.

(** X5.  The fee of a decision is 0.0 when the advance is not approved and
    lies between 10 and 50 when it is, whatever the amount asked for. *)
Theorem X5_fee_bounds uuid4 now (loans_db : ledger) request export_csv d db' :
  calculate_advance libm_pow linesep uuid4 now loans_db request export_csv
  = (Json (Decision d), db') ->
  if advance_approved d
  then (10 <=? fee d)%float = true /\ (fee d <=? 50)%float = true
  else fee d = 0%float.
Proof.
  intros H.
  apply decision_inv in H as (ms & Hms & [(He & -> & _)|(He & t & s & _ & -> & _)]).
  - reflexivity.
  - cbn [decision_of advance_approved fee].
    destruct (advance_amount request <=? ms * 0.5)%float; [apply advance_fee_bounds|reflexivity].
Qed.

(** X6.  The export is the schedule of the decision: when a call without
    export answers with a decision that carries a schedule, the same request
    sent with export_csv is answered, from any ledger, with the CSV text of
    that very schedule under the name amortization_schedule.csv, and the
    ledger is left as it was. *)
Theorem X6_export_of_decision uuid4 now (loans_db : ledger) request d db' rows :
  calculate_advance libm_pow linesep uuid4 now loans_db request false
  = (Json (Decision d), db') ->
  amortization_schedule d = Some rows ->
  forall uuid4' now' (loans_db' : ledger),
    calculate_advance libm_pow linesep uuid4' now' loans_db' request true
    = (Json (CsvExport (to_csv linesep rows) "amortization_schedule.csv"), loans_db').
Proof.
  intros H Hs uuid4' now' loans_db'.
  apply decision_inv in H as (ms & Hms & [(He & -> & _)|(He & t & s & Hl & -> & _)]);
    [discriminate|].
  cbn [decision_of amortization_schedule] in Hs. subst s.
  apply loan_math_values_inv in Hl
    as [(_ & _ & Hn)|(Ha & Hf & _ & la & ir & lt & t' & Hla & Hir & Hlt & Hc & _ & Hi)];
    [discriminate|].
  rewrite (calculate_advance_eligible libm_pow linesep _ _ _ _ _ _ Hms He), Ha.
  unfold loan_math. unfold loan_fields_truthy in Hf.
  rewrite Hla, Hir, Hlt in *. simpl. rewrite Hf, Hc. simpl.
  rewrite orb_true_r.
  destruct (option_bool (include_amortization request)).
  - destruct Hi as (rows' & Hg & [= ->]). rewrite Hg. reflexivity.
  - discriminate.
Qed.

(** X14.  Loan fields that are not all truthy switch the loan off.  When
    loan_amount, interest_rate or loan_term is missing or zero, and an
    interest rate of zero is such a case, the call is answered with a
    decision that has no total_repayable and no schedule, also when
    export_csv is set, or with the 400 of an invalid pay_frequency: it never
    answers with CSV text or with another error. *)
Theorem X14_falsy_loan_fields uuid4 now (loans_db : ledger) request export_csv :
  loan_fields_truthy request = false ->
  let out := calculate_advance libm_pow linesep uuid4 now loans_db request export_csv in
  ((exists d db',
      out = (Json (Decision d), db')
      /\ total_repayable d = None /\ amortization_schedule d = None)
   \/ out = (HTTPException 400 "Invalid pay_frequency", loans_db))
  /\ (forall la ir lt,
        (loan_amount request = Some la /\ (la =? 0)%float = true)
        \/ (interest_rate request = Some ir /\ (ir =? 0)%float = true)
        \/ loan_term request = Some lt /\ lt = 0 ->
        loan_fields_truthy request = false).
Proof.
  intros Hf out. subst out. split.
  - pose proof (valid_pay_frequency_convert (gross_salary request)
                  (pay_frequency request)) as Hv.
    destruct (valid_pay_frequency (pay_frequency request)).
    + left. destruct Hv as [ms Hms]. destruct (1000 <=? ms)%float eqn:He.
      * rewrite (calculate_advance_eligible libm_pow linesep _ _ _ _ _ _ Hms He).
        rewrite (loan_math_no_fields _ _ _ _ _ Hf). eauto.
      * rewrite (calculate_advance_ineligible libm_pow linesep _ _ _ _ _ _ Hms He).
        eauto.
    + right. unfold calculate_advance, calculate_advance_try. rewrite Hv. reflexivity.
  - clear Hf. intros la ir lt H. unfold loan_fields_truthy, float_bool.
    destruct H as [[-> H]|[[-> H]|[-> ->]]].
    + rewrite H. destruct (interest_rate request), (loan_term request); reflexivity.
    + rewrite H.
      destruct (loan_amount request), (loan_term request);
        rewrite ?andb_false_r; reflexivity.
    + destruct (loan_amount request), (interest_rate request);
        rewrite ?andb_false_r; reflexivity.
Qed.

(** X15.  No advance without a positive salary: a request whose
    gross_salary is zero, negative or NaN is answered with the ineligible
    decision, or with the 400 of an invalid pay_frequency, and the ledger
    is left as it was. *)
Theorem X15_salary_not_positive uuid4 now (loans_db : ledger) request export_csv :
  (0 <? gross_salary request)%float = false ->
  let out := calculate_advance libm_pow linesep uuid4 now loans_db request export_csv in
  out = (Json (Decision ineligible_decision), loans_db)
  \/ out = (HTTPException 400 "Invalid pay_frequency", loans_db).
Proof.
  intros Hs out. subst out.
  pose proof (valid_pay_frequency_convert (gross_salary request)
                (pay_frequency request)) as Hv.
  destruct (valid_pay_frequency (pay_frequency request)).
  - left. destruct Hv as [ms Hms].
    apply (calculate_advance_ineligible libm_pow linesep _ _ _ _ _ _ Hms).
    apply (convert_not_positive _ _ _ Hs Hms).
  - right. unfold calculate_advance, calculate_advance_try. rewrite Hv. reflexivity.
Qed.

End Further.

(** ** Numbers that are not negative *)

Lemma ltb_zero_not_negative (x : float) :
  (x <? 0)%float = negb (SFnot_negative (Prim2SF x)).
Proof.
  rewrite ltb_spec. change (Prim2SF 0) with (S754_zero false).
  destruct (Prim2SF x) as [s|s| |s m e]; try destruct s; reflexivity.
Qed.

Lemma SFnonneg_not_negative r : SFnonneg r = true -> SFnot_negative r = true.
Proof. destruct r; simpl; auto. Qed.

Lemma SFmul_not_negative a b :
  SFnonneg a = true -> SFnonneg b = true ->
  SFnot_negative (SFmul prec emax a b) = true.
Proof.
  destruct a as [s|s| |s m e], b as [s'|s'| |s' m' e']; simpl;
    try discriminate; try reflexivity; intros Ha Hb;
    try (destruct s; try discriminate); try (destruct s'; try discriminate);
    try reflexivity.
  apply SFnonneg_not_negative, binary_round_aux_nonneg. lia.
Qed.

Lemma mul_not_negative (x y : float) :
  (0 <=? x)%float = true -> (0 <=? y)%float = true -> (x * y <? 0)%float = false.
Proof.
  rewrite !leb_zero_nonneg, ltb_zero_not_negative, mul_spec. intros Hx Hy.
  unfold SF64mul. rewrite SFmul_not_negative by assumption. reflexivity.
Qed.

Lemma np_round2_not_negative (x : float) :
  (x <? 0)%float = false -> (np_round2 x <? 0)%float = false.
Proof.
  rewrite !ltb_zero_not_negative. intros H. apply negb_false_iff in H.
  apply negb_false_iff.
  destruct (Prim2SF x) as [s|s| |s m e] eqn:E.
  - apply SFnonneg_not_negative. rewrite <- leb_zero_nonneg.
    apply np_round2_nonneg. rewrite leb_zero_nonneg, E. reflexivity.
  - apply SFnonneg_not_negative. rewrite <- leb_zero_nonneg.
    apply np_round2_nonneg. rewrite leb_zero_nonneg, E. exact H.
  - unfold np_round2, rint.
    assert (Hm : Prim2SF (x * 100) = S754_nan) by (rewrite mul_spec, E; reflexivity).
    rewrite Hm, div_spec, Hm. reflexivity.
  - apply SFnonneg_not_negative. rewrite <- leb_zero_nonneg.
    apply np_round2_nonneg. rewrite leb_zero_nonneg, E. exact H.
Qed.

(** ** Multiplying by one *)

Lemma Zdigits2_mul_pow2 m k :
  0 < m -> 0 <= k -> Zdigits2 (m * 2 ^ k) = Zdigits2 m + k.
Proof.
  intros Hm Hk.
  assert (0 < 2 ^ k) by (apply Z.pow_pos_nonneg; lia).
  rewrite !Zdigits2_log2 by nia.
  rewrite Z.log2_mul_pow2 by lia. lia.
Qed.

Lemma binary_round_aux_exact s m e k :
  bounded prec emax m e = true -> 0 <= k ->
  binary_round_aux prec emax s (Z.pos m * 2 ^ k) (e - k) loc_Exact
  = S754_finite s m e.
Proof.
  intros Hb Hk. unfold bounded, canonical_mantissa in Hb.
  apply andb_prop in Hb as [Hc He].
  apply Z.eqb_eq in Hc. change (Z.pos (digits2_pos m)) with (Zdigits2 (Z.pos m)) in Hc.
  assert (Hs : shr_fexp prec emax (Z.pos m * 2 ^ k) (e - k) loc_Exact
               = ({| shr_m := Z.pos m; shr_r := false; shr_s := false |}, e)).
  { unfold shr_fexp. rewrite Zdigits2_mul_pow2 by lia.
    replace (Zdigits2 (Z.pos m) + k + (e - k)) with (Zdigits2 (Z.pos m) + e) by lia.
    rewrite Hc. replace (e - (e - k)) with k by lia.
    cbn [shr_record_of_loc]. unfold shr.
    destruct k as [|p|p]; try lia.
    - f_equal; [|lia]. f_equal. lia.
    - rewrite iter_pos_nat. f_equal; [|lia].
      rewrite <- (positive_nat_Z p) at 1. apply iter_shr_1_zeros. lia. }
  unfold binary_round_aux. rewrite Hs.
  cbn [shr_m loc_of_shr_record round_nearest_even].
  unfold shr_fexp. rewrite Hc, Z.sub_diag. cbn [shr_record_of_loc shr shr_m].
  rewrite He. reflexivity.
Qed.

Lemma float_mul_1_r (x : float) : (x * 1)%float = x.
Proof.
  transitivity (SF2Prim (Prim2SF x)); [|apply SF2Prim_Prim2SF].
  rewrite <- (SF2Prim_Prim2SF (x * 1)), mul_spec. f_equal.
  change (Prim2SF 1) with (S754_finite false 4503599627370496 (-52)).
  pose proof (Prim2SF_valid x) as Hv.
  destruct (Prim2SF x) as [s|s| |s m e]; unfold SF64mul; simpl;
    rewrite ?xorb_false_r; try reflexivity.
  replace (Z.pos (m * 4503599627370496)) with (Z.pos m * 2 ^ 52) by reflexivity.
  replace (e + -52) with (e - 52) by lia.
  apply binary_round_aux_exact; [exact Hv|lia].
Qed.

(** ** More on the amortization loop *)

Section ScheduleRows.

Variables monthly_rate monthly_payment : float.
Variable term_months : Z.

Lemma amortization_row_interest i balance :
  at_Interest (amortization_row monthly_rate monthly_payment term_months i balance)
  = (balance * monthly_rate)%float.
Proof. unfold amortization_row. destruct (_ && _); reflexivity. Qed.


Lemma amortization_rows_interest n : forall i balance,
  (0 <=? monthly_rate)%float = true -> (0 <=? balance)%float = true ->
  Forall (fun r => (at_Interest r <? 0)%float = false)
    (amortization_rows monthly_rate monthly_payment term_months n i balance).
Proof.
  induction n as [|n IH]; intros i balance Hr Hb; simpl; constructor.
  - rewrite amortization_row_interest. apply mul_not_negative; assumption.
  - apply IH; [exact Hr|apply amortization_row_balance].
Qed.


End ScheduleRows.



Section FurtherSchedule.

Variable libm_pow : float -> float -> float.

(** X7.  [generate_amortization_schedule] returns no schedule for a term
    that is not positive: a term of 0 raises [ZeroDivisionError], whatever
    the principal and the rate, and a negative term never gives a
    schedule. *)
Theorem X7_nonpositive_term (principal rate : float) :
  generate_amortization_schedule libm_pow principal rate 0 = Raise ZeroDivisionError
  /\ forall term_months rows,
       term_months <= 0 ->
       generate_amortization_schedule libm_pow principal rate term_months <> Ok rows.
Proof.
  split.
  - unfold generate_amortization_schedule, monthly_payment_of.
    destruct (rate / 100 / 12 =? 0)%float; reflexivity.
  - intros term_months rows Hn H. apply schedule_inv in H as [H _]. lia.
Qed.


(** X9.  When the principal and the annual rate are not negative, no row of
    the schedule has a negative Interest. *)
Theorem X9_interest_not_negative (principal rate : float) (term_months : Z) rows :
  (0 <=? principal)%float = true -> (0 <=? rate)%float = true ->
  generate_amortization_schedule libm_pow principal rate term_months = Ok rows ->
  Forall (fun r => (Interest r <? 0)%float = false) rows.
Proof.
  intros Hp Hr H. apply schedule_inv in H as (Hn & mp & _ & ->).
  unfold round_frame. apply Forall_fmap.
  eapply Forall_impl.
  - apply amortization_rows_interest; [|exact Hp].
    eapply div_nonneg; [vm_compute; reflexivity|].
    eapply div_nonneg; [vm_compute; reflexivity|exact Hr].
  - intros f Hf. simpl. apply np_round2_not_negative, Hf.
Qed.

(** X10.  A loan at a rate of zero repays the principal: when the C
    library's power of 1 is 1, as the C standard has it,
    [calculate_compound_interest] returns the principal rounded to two
    decimals for every term on which the number of periods is computed. *)
Theorem X10_zero_rate_total (principal rate : float) (term_months : Z) (p : float) :
  (rate =? 0)%float = true ->
  periods term_months = Ok p ->
  libm_pow 1 p = 1%float ->
  calculate_compound_interest libm_pow principal rate term_months
  = Ok (np_round2 principal).
Proof.
  intros Hr Hp Hpow. unfold calculate_compound_interest. rewrite Hp. simpl.
  assert (Hb : (1 + rate / 100 / 12)%float = 1%float)
    by (destruct (eqb_zero_cases rate Hr) as [-> | ->]; vm_compute; reflexivity).
  rewrite Hb. unfold np_power. rewrite Hpow, float_mul_1_r. reflexivity.
Qed.

End FurtherSchedule.

(** ** The retry loop of the front end *)

Section RetryProperties.

Context {U P A E : Type}.
Variable requests_post : U -> P -> Z -> nat -> attempt A E.
Variables (url : U) (payload : P) (max_retries timeout : Z).

(** While the attempts fail with a [RequestException] and turns are left,
    the loop goes on, five seconds later. *)
Lemma retry_loop_failures (j : nat) : forall remaining i done,
  (forall k, (k < j)%nat ->
     exists e, requests_post url payload timeout (posts done + k)
               = RequestException e) ->
  i + Z.of_nat j <= max_retries - 1 ->
  retry_loop requests_post url payload max_retries timeout (j + remaining) i done
  = retry_loop requests_post url payload max_retries timeout remaining
      (i + Z.of_nat j)
      {| posts := posts done + j; slept := slept done + 5 * Z.of_nat j |}.
Proof.
  induction j as [|j IH]; intros remaining i done Hf Hi.
  - simpl. rewrite Z.add_0_r, Nat.add_0_r, Z.add_0_r. destruct done; reflexivity.
  - cbn [Nat.add retry_loop].
    destruct (Hf 0%nat ltac:(lia)) as [e He]. rewrite Nat.add_0_r in He. rewrite He.
    replace (i <? max_retries - 1) with true by (symmetry; apply Z.ltb_lt; lia).
    rewrite IH.
    + cbn [posts slept]. f_equal; [lia|]. f_equal; lia.
    + intros k Hk. cbn [posts]. destruct (Hf (S k) ltac:(lia)) as [e' He'].
      exists e'. rewrite <- He'. f_equal. lia.
    + lia.
Qed.

(** X11.  The first attempt that does not fail with a [RequestException]
    settles the call, if it comes within [max_retries] attempts: its answer
    is returned, or its exception leaves the call at once, after one request
    per attempt and five seconds of sleep after each failure. *)
Theorem X11_retry_until_settled (j : nat) :
  Z.of_nat j < max_retries ->
  (forall k, (k < j)%nat ->
     exists e, requests_post url payload timeout k = RequestException e) ->
  let after := {| posts := S j; slept := 5 * Z.of_nat j |} in
  (forall body, requests_post url payload timeout j = Answered body ->
     get_backend_response requests_post url payload max_retries timeout
     = (Returned (Some body), after))
  /\ (forall e, requests_post url payload timeout j = OtherException e ->
        get_backend_response requests_post url payload max_retries timeout
        = (Raised e, after)).
Proof.
  intros Hj Hf after. unfold get_backend_response.
  replace (Z.to_nat max_retries) with (j + S (Z.to_nat max_retries - S j))%nat by lia.
  rewrite retry_loop_failures; [|exact Hf|lia].
  cbn [retry_loop posts slept Nat.add]. split; intros x Hx; rewrite Hx; reflexivity.
Qed.

(** X12.  When every one of the [max_retries] attempts fails with a
    [RequestException], the exception of the last attempt leaves the call,
    after [max_retries] requests and five seconds of sleep between one
    request and the next, none after the last. *)
Theorem X12_retry_exhausted (e : E) :
  1 <= max_retries ->
  (forall k, Z.of_nat k < max_retries - 1 ->
     exists e', requests_post url payload timeout k = RequestException e') ->
  requests_post url payload timeout (Z.to_nat (max_retries - 1)) = RequestException e ->
  get_backend_response requests_post url payload max_retries timeout
  = (Raised e, {| posts := Z.to_nat max_retries; slept := 5 * (max_retries - 1) |}).
Proof.
  intros Hn Hf Hlast. unfold get_backend_response.
  replace (Z.to_nat max_retries) with (Z.to_nat (max_retries - 1) + 1)%nat at 1 by lia.
  rewrite retry_loop_failures; [|intros k Hk; apply Hf; cbn [posts Nat.add]; lia|lia].
  cbn [retry_loop posts slept Nat.add]. rewrite Hlast.
  replace (0 + Z.of_nat (Z.to_nat (max_retries - 1)) <? max_retries - 1) with false
    by (symmetry; apply Z.ltb_ge; lia).
  f_equal. f_equal; lia.
Qed.



End RetryProperties.

(** ** The further properties on concrete calls *)

Lemma X1_witness :
  get_loan
    (snd (calculate_advance pow_exact LF "id2" "later" (<["id" := sample_record]> ∅)
            (advance_only 4000 "Monthly" 500) false)) "id"
  = get_loan (<["id" := sample_record]> ∅) "id".
Proof.
  apply (proj1 (X1_other_loans_untouched pow_exact LF "id2" "later"
                  (<["id" := sample_record]> ∅)
                  (advance_only 4000 "Monthly" 500) false "id")).
  discriminate.
Defined.

Lemma X2_witness :
  get_loan
    (snd (calculate_advance pow_exact LF "id2" "later" (<["id" := sample_record]> ∅)
            (advance_only 4000 "Monthly" 500) false)) "id"
  = Json sample_record.
Proof.
  apply (X2_two_advances pow_exact LF "id" "now" "id2" "later" ∅
           (advance_only 4000 "Monthly" 1000) false
           (advance_only 4000 "Monthly" 500) false
           (decision_of "id" (advance_only 4000 "Monthly" 1000) 4000 None None)
           (<["id" := sample_record]> ∅)).
  - discriminate.
  - vm_compute. reflexivity.
  - reflexivity.
Defined.


Lemma X4_witness :
  exists t rows,
    calculate_compound_interest pow_exact 700 1200 3 = Ok t
    /\ generate_amortization_schedule pow_exact 700 1200 3 = Ok rows
    /\ amortization_schedule
         (decision_of "id" export_request 4000 (Some 5600%float) (Some export_rows))
       = Some rows.
Proof.
  destruct (X4_loan_values pow_exact LF "id" "now" ∅ export_request false
              (decision_of "id" export_request 4000 (Some 5600%float) (Some export_rows))
              (<["id" := loan_record export_request "id" "now" 50 (Some 5600%float)
                           (Some export_rows)]> ∅))
    as (_ & la & ir & lt & t & A & B & C & D & _ & rows & E & F).
  - vm_compute. reflexivity.
  - injection A as <-. injection B as <-. injection C as <-. eauto.
Defined.

Lemma X5_witness :
  (10 <=? fee (decision_of "id" (advance_only 4000 "Monthly" 1000) 4000 None None))%float
  = true
  /\ (fee (decision_of "id" (advance_only 4000 "Monthly" 1000) 4000 None None)
      <=? 50)%float = true.
Proof.
  apply (X5_fee_bounds pow_exact LF "id" "now" ∅
           (advance_only 4000 "Monthly" 1000) false
           (decision_of "id" (advance_only 4000 "Monthly" 1000) 4000 None None)
           (<["id" := sample_record]> ∅)).
  vm_compute. reflexivity.
Defined.

Lemma X6_witness :
  calculate_advance pow_exact LF "id2" "later" ∅ export_request true
  = (Json (CsvExport (to_csv LF export_rows) "amortization_schedule.csv"), ∅).
Proof.
  apply (X6_export_of_decision pow_exact LF "id" "now" ∅ export_request
           (decision_of "id" export_request 4000 (Some 5600%float) (Some export_rows))
           (<["id" := loan_record export_request "id" "now" 50 (Some 5600%float)
                        (Some export_rows)]> ∅)
           export_rows).
  - vm_compute. reflexivity.
  - reflexivity.
Defined.

Lemma X7_witness :
  generate_amortization_schedule pow_exact 1000 12 (-3) <> Ok [].
Proof.
  apply (proj2 (X7_nonpositive_term pow_exact 1000 12)). lia.
Defined.


Lemma X9_witness :
  Forall (fun r => (Interest r <? 0)%float = false) export_rows.
Proof.
  apply (X9_interest_not_negative pow_exact 700 1200 3 export_rows).
  - reflexivity.
  - reflexivity.
  - vm_compute. reflexivity.
Defined.

Lemma X10_witness :
  calculate_compound_interest pow_exact 1000 0 12 = Ok 1000%float.
Proof.
  apply (X10_zero_rate_total pow_exact 1000 0 12 12).
  - reflexivity.
  - vm_compute. reflexivity.
  - vm_compute. reflexivity.
Defined.

Lemma X11_witness :
  get_backend_response (flaky_backend 2) "url" "payload" 10 5
  = (Returned (Some "ok"), {| posts := 3; slept := 10 |}).
Proof.
  apply (proj1 (X11_retry_until_settled (flaky_backend 2) "url" "payload" 10 5 2
                  ltac:(lia)
                  ltac:(intros [|[|k]] Hk; [eexists; reflexivity..|lia]))).
  reflexivity.
Defined.

Lemma X12_witness :
  get_backend_response (flaky_backend 3) "url" "payload" 3 5
  = (Raised "ConnectionError", {| posts := 3; slept := 10 |}).
Proof.
  apply (X12_retry_exhausted (flaky_backend 3) "url" "payload" 3 5 "ConnectionError").
  - lia.
  - intros [|[|k]] Hk; [eexists; reflexivity..|lia].
  - reflexivity.
Defined.


Lemma X14_witness :
  exists d db',
    calculate_advance pow_exact LF "id" "now" ∅
      (advance_with_loan 4000 "Monthly" 1000 700 0 3) true
    = (Json (Decision d), db')
    /\ total_repayable d = None /\ amortization_schedule d = None.
Proof.
  destruct (X14_falsy_loan_fields pow_exact LF "id" "now" ∅
              (advance_with_loan 4000 "Monthly" 1000 700 0 3) true eq_refl)
    as [[H|H] _].
  - exact H.
  - vm_compute in H. discriminate H.
Defined.

Lemma X15_witness :
  calculate_advance pow_exact LF "id" "now" ∅ (advance_only 0 "Weekly" 100) false
  = (Json (Decision ineligible_decision), ∅).
Proof.
  destruct (X15_salary_not_positive pow_exact LF "id" "now" ∅
              (advance_only 0 "Weekly" 100) false eq_refl) as [H|H].
  - exact H.
  - vm_compute in H. discriminate H.
Defined.
